(** * Layered configuration resolution for local Tanzu clusters

    A shallow embedding of [cli/cmd/plugin/standalone-cluster/config/config.go]:
    the data model ([PortMap], [LocalClusterConfig]), the resolution of the
    effective configuration ([InitializeConfiguration]), the derivation of
    environment-variable names ([fieldNameToEnvName]), the sanitization of the
    kubeconfig path ([sanatizeKubeconfigPath]) and the two persistence helpers
    ([RenderConfigToFile], [RenderFileToConfig]).

    Go strings are sequences of bytes; they are modelled by [string], whose
    characters are the 256 values of [ascii].  Maps with string keys are
    [gmap string _].  The ambient process state the code reads (environment,
    file system, current user) is passed explicitly. *)

From Stdlib Require Import Ascii ZArith DecimalString DecimalZ DecimalPos.
From stdpp Require Import base option list strings gmap fin_maps.

Set Warnings "-register-all".

(** ** The parts of the Go standard library the package uses *)

(** *** Package [strings] *)
Module Strings.

(** [strings.HasPrefix(s, prefix)]. *)
Definition HasPrefix (s pre : string) : bool := String.prefix pre s.

(** Upper-casing of one byte.  All keys handled by the package are ASCII, on
    which [strings.ToUpper] maps [a..z] to [A..Z] and fixes every other
    byte.  The letters outside ASCII, which [strings.ToUpper] also maps, are
    not modelled: the properties of the names are about ASCII keys. *)
Definition upper_byte (c : ascii) : ascii :=
  let n := nat_of_ascii c in
  if (97 <=? n)%nat && (n <=? 122)%nat then ascii_of_nat (n - 32) else c.

Fixpoint ToUpper (s : string) : string :=
  match s with
  | EmptyString => EmptyString
  | String c s' => String (upper_byte c) (ToUpper s')
  end.

(** [strings.Join(elems, sep)]. *)
Fixpoint Join (elems : list string) (sep : string) : string :=
  match elems with
  | [] => ""
  | [e] => e
  | e :: rest => e +:+ sep +:+ Join rest sep
  end.

(** [strings.Split(s, sep)] for a separator of one byte: the pieces of [s]
    between the occurrences of [sep]; never the empty list. *)
Fixpoint Split (sep : ascii) (s : string) : list string :=
  match s with
  | EmptyString => [""]
  | String c s' =>
      if ascii_dec c sep then "" :: Split sep s'
      else match Split sep s' with
           | piece :: pieces => String c piece :: pieces
           | [] => [String c ""]
           end
  end.

(** [s[n:]]. *)
Fixpoint drop (n : nat) (s : string) : string :=
  match n, s with
  | O, _ => s
  | S n', String _ s' => drop n' s'
  | S _, EmptyString => EmptyString
  end.

End Strings.

(** *** Package [regexp], for the one pattern the package compiles *)
Module Regexp.

(** The class [[A-Z]]. *)
Definition upper (c : ascii) : bool :=
  let n := nat_of_ascii c in (65 <=? n)%nat && (n <=? 90)%nat.

(** One pass over [s] from the right: the run of bytes outside [[A-Z]] that
    [s] starts with, and the matches of [[A-Z][^A-Z]*] after that run. *)
Fixpoint scan (s : string) : string * list string :=
  match s with
  | EmptyString => ("", [])
  | String c s' =>
      let '(run, found) := scan s' in
      if upper c then ("", String c run :: found) else (String c run, found)
  end.

(** [regexp.MustCompile(`[A-Z][^A-Z]*`).FindAllString(s, -1)]: the successive
    leftmost matches; each starts at an upper-case letter and extends over
    every following byte that is not one. *)
Definition FindAllString (s : string) : list string := snd (scan s).

End Regexp.

(** *** Package [path/filepath], on a system whose separator is [/] *)
Module Filepath.

Definition Separator : ascii := "/"%char.

(** The elements [Clean] keeps: neither empty (doubled or trailing
    separators) nor [.]. *)
Definition kept (e : string) : bool :=
  negb (String.eqb e "" || String.eqb e ".").

(** The output buffer of [Clean] as a stack of elements, last one first.
    A [..] removes the element before it; when there is none (or only [..]
    elements), it is dropped in a rooted path and kept otherwise. *)
Fixpoint walk (rooted : bool) (out : list string) (elems : list string)
  : list string :=
  match elems with
  | [] => out
  | e :: rest =>
      if String.eqb e ".." then
        match out with
        | top :: below =>
            if String.eqb top ".." then walk rooted (e :: out) rest
            else walk rooted below rest
        | [] => if rooted then walk rooted [] rest
                else walk rooted [e] rest
        end
      else walk rooted (e :: out) rest
  end.

(** [filepath.Clean(path)]: the shortest path equivalent to [path] by
    purely lexical processing. *)
Definition Clean (path : string) : string :=
  if String.eqb path "" then "."
  else
    let rooted := Strings.HasPrefix path "/" in
    let elems := filter (λ e, Is_true (kept e)) (Strings.Split Separator path) in
    let body := Strings.Join (rev (walk rooted [] elems)) "/" in
    let out := if rooted then "/" +:+ body else body in
    if String.eqb out "" then "." else out.

(** [filepath.Join(elem...)]: empty elements before the first non-empty one
    are ignored, the rest is joined with separators and cleaned; the result
    is empty when every element is. *)
Fixpoint Join (elem : list string) : string :=
  match elem with
  | [] => ""
  | e :: rest =>
      if String.eqb e "" then Join rest
      else Clean (Strings.Join elem "/")
  end.

End Filepath.

(** *** Package [os]: environment and a file system *)
Module Os.

(** [os.Getenv(key)]: the value of the variable, empty when it is unset. *)
Definition Getenv (environ : gmap string string) (key : string) : string :=
  default "" (environ !! key).

Inductive errno := ENOENT | ENOTDIR | EISDIR.

(** What a path names: a regular file with its contents, or a directory. *)
Inductive node := File (data : string) | Dir.

(** The file system maps the paths at which something exists to what is
    there.  The working directory and the root always exist.  A path is
    looked up as it is spelled: the keys of the map are clean paths, and the
    properties are about such paths. *)
Abbreviation FS := (gmap string node).

(** [os.IsNotExist(err)], where [None] is the nil error. *)
Definition IsNotExist (err : option errno) : bool :=
  match err with
  | Some ENOENT => true
  | _ => false
  end.

(** The error of [os.ReadDir(name)] (its entries are not used): listing
    succeeds on a directory, a regular file is not one, and nothing can be
    listed where nothing exists. *)
Definition ReadDir (fs : FS) (name : string) : option errno :=
  match fs !! name with
  | Some Dir => None
  | Some (File _) => Some ENOTDIR
  | None => Some ENOENT
  end.

(** [os.ReadFile(name)]. *)
Definition ReadFile (fs : FS) (name : string) : errno + string :=
  match fs !! name with
  | Some (File data) => inr data
  | Some Dir => inl EISDIR
  | None => inl ENOENT
  end.

(** The directory a new entry [name] is created in: [None] for the working
    directory or the root, which always exist. *)
Definition parent (name : string) : option string :=
  match rev (Strings.Split "/" name) with
  | _ :: (_ :: _) as before =>
      let dir := Strings.Join (rev before) "/" in
      if String.eqb dir "" then None else Some dir
  | _ => None
  end.

(** [os.WriteFile(name, data, 0644)]: creates or truncates the regular file
    [name]; fails on the empty name, on a directory, and when the
    directory that should hold the file does not exist.  The errors are
    those of opening the file; a write that fails after the file was opened
    is not modelled. *)
Definition WriteFile (fs : FS) (name data : string) : errno + FS :=
  if String.eqb name "" then inl ENOENT
  else match fs !! name with
       | Some Dir => inl EISDIR
       | Some (File _) => inr (<[name := File data]> fs)
       | None =>
           match parent name with
           | None => inr (<[name := File data]> fs)
           | Some dir =>
               match fs !! dir with
               | Some Dir => inr (<[name := File data]> fs)
               | Some (File _) => inl ENOTDIR
               | None => inl ENOENT
               end
           end
       end.

End Os.

(** *** Package [os/user] *)
Module User.

(** The part of [user.User] the package reads. *)
Record User := { HomeDir : string }.

End User.

(** ** Data model *)

(** The string constants of the package: keys of the argument map and of
    the table of defaults, and the segments of the configuration directory. *)
Module Key.
Definition ClusterConfigFile := "ClusterConfigFile".
Definition ClusterName := "ClusterName".
Definition Tty := "Tty".
Definition TKRLocation := "TkrLocation".
Definition Provider := "Provider".
Definition Cni := "Cni".
Definition PodCIDR := "PodCidr".
Definition ServiceCIDR := "ServiceCidr".
Definition configDir := ".config".
Definition tanzuConfigDir := "tanzu".
Definition yamlIndent : Z := 2.
End Key.

Definition defaultConfigValues : gmap string string :=
  list_to_map
    [ (Key.TKRLocation, "projects.registry.vmware.com/tce/tkr:v1.21.5");
      (Key.Provider, "kind");
      (Key.Cni, "antrea");
      (Key.PodCIDR, "10.244.0.0/16");
      (Key.ServiceCIDR, "10.96.0.0/16");
      (Key.Tty, "true") ].

(** PortMap is the mapping between a host port and a container port. *)
Record PortMap := { HostPort : Z; ContainerPort : Z }.

(** The values of type [interface{}] a configuration bag holds: what a
    structured-text document can denote. *)
Inductive Value :=
| VNull
| VBool (b : bool)
| VInt (n : Z)
| VString (s : string)
| VList (items : list Value)
| VMap (entries : list (string * Value)).

(** LocalClusterConfig contains all the configuration settings for creating
    a local Tanzu cluster.  A nil map is the empty map and a nil slice the
    empty list. *)
Record LocalClusterConfig := {
  ClusterName : string;
  KubeconfigPath : string;
  NodeImage : string;
  Provider : string;
  ProviderConfiguration : gmap string Value;
  Cni : string;
  CNIConfiguration : gmap string Value;
  PodCidr : string;
  ServiceCidr : string;
  TkrLocation : string;
  PortsToForward : list PortMap;
  Tty : string
}.

(** [&LocalClusterConfig{}]. *)
Definition zeroConfig : LocalClusterConfig :=
  {| ClusterName := ""; KubeconfigPath := ""; NodeImage := ""; Provider := "";
     ProviderConfiguration := ∅; Cni := ""; CNIConfiguration := ∅;
     PodCidr := ""; ServiceCidr := ""; TkrLocation := "";
     PortsToForward := []; Tty := "" |}.

(** *** The struct as package [reflect] shows it *)

Inductive Kind := KString | KMap | KSlice.

Global Instance Kind_eq_dec : EqDecision Kind.
Proof. solve_decision. Defined.

(** The fields of [LocalClusterConfig]. *)
Inductive Field :=
| FClusterName | FKubeconfigPath | FNodeImage | FProvider
| FProviderConfiguration | FCni | FCNIConfiguration | FPodCidr
| FServiceCidr | FTkrLocation | FPortsToForward | FTty.

Global Instance Field_eq_dec : EqDecision Field.
Proof. solve_decision. Defined.

(** [element.Type().Field(i)] for [i] from [0] to [element.NumField() - 1]. *)
Definition structFields : list Field :=
  [ FClusterName; FKubeconfigPath; FNodeImage; FProvider;
    FProviderConfiguration; FCni; FCNIConfiguration; FPodCidr;
    FServiceCidr; FTkrLocation; FPortsToForward; FTty ].

(** [field.Name]. *)
Definition Name (field : Field) : string :=
  match field with
  | FClusterName => "ClusterName"
  | FKubeconfigPath => "KubeconfigPath"
  | FNodeImage => "NodeImage"
  | FProvider => "Provider"
  | FProviderConfiguration => "ProviderConfiguration"
  | FCni => "Cni"
  | FCNIConfiguration => "CNIConfiguration"
  | FPodCidr => "PodCidr"
  | FServiceCidr => "ServiceCidr"
  | FTkrLocation => "TkrLocation"
  | FPortsToForward => "PortsToForward"
  | FTty => "Tty"
  end.

(** [field.Tag.Get("yaml")]. *)
Definition yamlTag (field : Field) : string :=
  match field with
  | FClusterName => "ClusterName"
  | FKubeconfigPath => "KubeconfigPath"
  | FNodeImage => "NodeImage"
  | FProvider => "Provider"
  | FProviderConfiguration => "ProviderConfiguration"
  | FCni => "Cni"
  | FCNIConfiguration => "CniConfiguration"
  | FPodCidr => "PodCidr"
  | FServiceCidr => "ServiceCidr"
  | FTkrLocation => "TkrLocation"
  | FPortsToForward => "PortsToForward"
  | FTty => "Tty"
  end.

(** [field.Type.Kind()]. *)
Definition kind (field : Field) : Kind :=
  match field with
  | FProviderConfiguration | FCNIConfiguration => KMap
  | FPortsToForward => KSlice
  | _ => KString
  end.

(** [element.FieldByName(field.Name).String()]; on a value that is not a
    string, [reflect] answers with the name of its type. *)
Definition GetString (field : Field) (config : LocalClusterConfig) : string :=
  match field with
  | FClusterName => ClusterName config
  | FKubeconfigPath => KubeconfigPath config
  | FNodeImage => NodeImage config
  | FProvider => Provider config
  | FProviderConfiguration => "<map[string]interface {} Value>"
  | FCni => Cni config
  | FCNIConfiguration => "<map[string]interface {} Value>"
  | FPodCidr => PodCidr config
  | FServiceCidr => ServiceCidr config
  | FTkrLocation => TkrLocation config
  | FPortsToForward => "<[]config.PortMap Value>"
  | FTty => Tty config
  end.

(** [element.FieldByName(field.Name).SetString(value)].  The loop calls it on
    fields of kind string only (on the others [reflect] would panic). *)
Definition SetString (field : Field) (value : string)
    (config : LocalClusterConfig) : LocalClusterConfig :=
  let 'Build_LocalClusterConfig cn kp ni pr pc cni cc pod svc tkr ports tty :=
    config in
  match field with
  | FClusterName =>
      Build_LocalClusterConfig value kp ni pr pc cni cc pod svc tkr ports tty
  | FKubeconfigPath =>
      Build_LocalClusterConfig cn value ni pr pc cni cc pod svc tkr ports tty
  | FNodeImage =>
      Build_LocalClusterConfig cn kp value pr pc cni cc pod svc tkr ports tty
  | FProvider =>
      Build_LocalClusterConfig cn kp ni value pc cni cc pod svc tkr ports tty
  | FCni =>
      Build_LocalClusterConfig cn kp ni pr pc value cc pod svc tkr ports tty
  | FPodCidr =>
      Build_LocalClusterConfig cn kp ni pr pc cni cc value svc tkr ports tty
  | FServiceCidr =>
      Build_LocalClusterConfig cn kp ni pr pc cni cc pod value tkr ports tty
  | FTkrLocation =>
      Build_LocalClusterConfig cn kp ni pr pc cni cc pod svc value ports tty
  | FTty =>
      Build_LocalClusterConfig cn kp ni pr pc cni cc pod svc tkr ports value
  | FProviderConfiguration | FCNIConfiguration | FPortsToForward => config
  end.

(** *** Errors and results *)

Inductive error :=
| OsError (e : Os.errno)
    (** an error of package [os], returned as it is *)
| YamlError (msg : string)
    (** an error of the YAML library, returned as it is *)
| Errorf (msg : string)
    (** [fmt.Errorf(msg)], a fixed message *)
| CreateFailed (filePath : string)
    (** "failed to create config file at %q, does it already exist" *)
| RenderFailed (cause : string)
    (** "failed to render configuration file. Error: %s" *)
| WriteFailed (cause : Os.errno)
    (** "failed to write rawConfig file. Error: %s" *)
| ReadFailed (cause : Os.errno)
    (** "failed reading config file. Error: %s" *)
| Invalid (filePath : string) (cause : string).
    (** "configuration at %s was invalid. Error: %s" *)

(** What a call does: it returns a value with a nil error, returns an error
    (and no value), or panics. *)
Inductive result (A : Type) :=
| Ok (a : A)
| Err (e : error)
| Panic.
Arguments Ok {A} a.
Arguments Err {A} e.
Arguments Panic {A}.

Global Instance result_bind : MBind result := λ A B k r,
  match r with
  | Ok a => k a
  | Err e => Err e
  | Panic => Panic
  end.

(** The process state the package reads. *)
Record Process := {
  environ : gmap string string;
  files : Os.FS;
  (** the user of [user.Current()], [None] when the lookup fails: the call
      then returns a nil [*User] and an error *)
  current : option User.User
}.

(** The YAML library ([gopkg.in/yaml.v3]) as an interface: encoding of a
    configuration with an indentation of [Key.yamlIndent], and decoding of a
    document into a configuration that is given.  [inl msg] is an error. *)
Class Yaml := {
  Encode : LocalClusterConfig → string + string;
  Unmarshal : string → LocalClusterConfig → string + LocalClusterConfig
}.

(** ** The operations of the package *)

(** [m[key]] on a Go map of strings: the empty string for an absent key. *)
Definition index (m : gmap string string) (key : string) : string :=
  default "" (m !! key).

(** KubeConfigPath gets the full path to the KubeConfig for this local
    cluster. *)
Definition KubeConfigPath (p : Process) (lcc : LocalClusterConfig) : string :=
  Filepath.Join [ Os.Getenv (environ p) "HOME"; Key.configDir;
                  Key.tanzuConfigDir; ClusterName lcc +:+ ".yaml" ].

(** fieldNameToEnvName converts the config values yaml name to its expected
    env variable name. *)
Definition fieldNameToEnvName (field : string) : string :=
  let namedArray := ["TANZU"] in
  let allWords := Regexp.FindAllString field in
  let namedArray :=
    fold_left (λ named word, named ++ [Strings.ToUpper word])
              allWords namedArray in
  Strings.Join namedArray "_".

Definition sanatizeKubeconfigPath (usr : option User.User) (path : string)
  : result string :=
  let builder := "" in
  if Strings.HasPrefix path "~/" then
    (* handle tildas at the beginning of the path; [usr.HomeDir] on the nil
       user of a failed lookup is a nil dereference *)
    match usr with
    | None => Panic
    | Some usr =>
        let builder := Filepath.Join [builder; User.HomeDir usr] in
        let path := Strings.drop 2 path in
        Ok (Filepath.Join [builder; path])
    end
  else Ok (Filepath.Join [builder; path]).

(** One iteration of the loop over the fields of the struct. *)
Definition lookupField (commandArgs environ : gmap string string)
    (config : LocalClusterConfig) (field : Field) : LocalClusterConfig :=
  match kind field with
  | KString =>
      (* Use the yaml name if provided so it matches what we serialize *)
      let fieldName :=
        if decide (yamlTag field = "") then Name field else yamlTag field in
      let fromEnv (config : LocalClusterConfig) :=
        (* See if there is an environment variable set for this field *)
        let value := Os.Getenv environ (fieldNameToEnvName fieldName) in
        if decide (value ≠ "") then SetString field value config else config in
      let config :=
        (* Check if an explicit value was passed in *)
        match commandArgs !! fieldName with
        | Some value =>
            if decide (value ≠ "") then SetString field value config
            else fromEnv config
        | None => fromEnv config
        end in
      (* Only set to the default value if it hasn't been set already *)
      if decide (GetString field config = "") then
        match defaultConfigValues !! fieldName with
        | Some value => SetString field value config
        | None => config
        end
      else config
  | _ =>
      (* Not supporting more complex data types yet *)
      config
  end.

(** The loop through the fields, in the order of the struct. *)
Definition lookupFields (commandArgs environ : gmap string string)
    (config : LocalClusterConfig) : LocalClusterConfig :=
  fold_left (lookupField commandArgs environ) structFields config.

Definition withKubeconfigPath (value : string) (config : LocalClusterConfig)
  : LocalClusterConfig := SetString FKubeconfigPath value config.

Section Package.
Context `{Yaml}.

(** First step of [InitializeConfiguration]: populate values based on a
    supplied config file. *)
Definition loadBaseline (p : Process) (commandArgs : gmap string string)
  : result LocalClusterConfig :=
  let config := zeroConfig in
  if decide (index commandArgs Key.ClusterConfigFile ≠ "") then
    match Os.ReadFile (files p) (index commandArgs Key.ClusterConfigFile) with
    | inl err => Err (OsError err)
    | inr configData =>
        match Unmarshal configData config with
        | inl err => Err (YamlError err)
        | inr config => Ok config
        end
    end
  else Ok config.

(** InitializeConfiguration determines the configuration to use for
    cluster creation. *)
Definition InitializeConfiguration (p : Process)
    (commandArgs : gmap string string) : result LocalClusterConfig :=
  config ← loadBaseline p commandArgs;
  (* Loop through and look up each field *)
  let config := lookupFields commandArgs (environ p) config in
  (* Make sure cluster name was either set on the command line or in the
     config file. *)
  if decide (ClusterName config = "") then
    Err (Errorf "cluster name must be provided")
  else
    (* Sanatize the filepath for the provided kubeconfig *)
    path ← sanatizeKubeconfigPath (current p) (KubeconfigPath config);
    Ok (withKubeconfigPath path config).

(** RenderConfigToFile take a file path and serializes the configuration
    data to that path.  It expects the path to not exist, if it does, an
    error is returned.  The result is the file system after the call and
    the error, [None] for nil. *)
Definition RenderConfigToFile (filePath : string)
    (config : LocalClusterConfig) (fs : Os.FS) : Os.FS * option error :=
  let err := Os.ReadDir fs filePath in
  if negb (Os.IsNotExist err) then (fs, Some (CreateFailed filePath))
  else
    match Encode config with
    | inl err => (fs, Some (RenderFailed err))
    | inr rawConfig =>
        match Os.WriteFile fs filePath rawConfig with
        | inl err => (fs, Some (WriteFailed err))
        | inr fs' => (fs', None)
        end
    end.

(** RenderFileToConfig reads in configuration from a file and returns the
    LocalClusterConfig structure based on it. *)
Definition RenderFileToConfig (fs : Os.FS) (filePath : string)
  : result LocalClusterConfig :=
  match Os.ReadFile fs filePath with
  | inl err => Err (ReadFailed err)
  | inr d =>
      let lcc := zeroConfig in
      match Unmarshal d lcc with
      | inl err => Err (Invalid filePath err)
      | inr lcc => Ok lcc
      end
  end.

End Package.

(** *** A small instance of the YAML interface

    Documents made of lines [Key: value], one for each string field that is
    not empty.  It serves to run the operations on concrete files. *)
Module Flat.

Definition newline : string := String (ascii_of_nat 10) "".

Definition line (config : LocalClusterConfig) (field : Field) : string :=
  match kind field with
  | KString =>
      if decide (GetString field config = "") then ""
      else yamlTag field +:+ ": " +:+ GetString field config +:+ newline
  | _ => ""
  end.

Definition encode (config : LocalClusterConfig) : string + string :=
  if decide (size (ProviderConfiguration config) = 0
             ∧ size (CNIConfiguration config) = 0
             ∧ PortsToForward config = [])
  then inr (String.concat "" (map (line config) structFields))
  else inl "cannot marshal nested values".

(** Splits a line at the first colon that a space follows. *)
Fixpoint cut (s : string) : option (string * string) :=
  match s with
  | EmptyString => None
  | String c s' =>
      match s' with
      | String " " value =>
          if ascii_dec c ":" then Some ("", value)
          else '(key, value) ← cut s'; Some (String c key, value)
      | _ => '(key, value) ← cut s'; Some (String c key, value)
      end
  end.

Definition assign (config : string + LocalClusterConfig) (l : string)
  : string + LocalClusterConfig :=
  match config with
  | inl err => inl err
  | inr config =>
      if decide (l = "") then inr config
      else match cut l with
           | None => inl "could not find expected ':'"
           | Some (key, value) =>
               match list_find (λ f, yamlTag f = key ∧ kind f = KString)
                               structFields with
               | Some (_, field) => inr (SetString field value config)
               | None => inr config
               end
           end
  end.

Definition unmarshal (data : string) (config : LocalClusterConfig)
  : string + LocalClusterConfig :=
  fold_left assign (Strings.Split (ascii_of_nat 10) data) (inr config).

Definition yaml : Yaml := {| Encode := encode; Unmarshal := unmarshal |}.

End Flat.

(** ** Notions the properties are stated with *)

(** The bytes of [s] before its first upper-case letter. *)
Fixpoint beforeUpper (s : string) : string :=
  match s with
  | EmptyString => ""
  | String c s' => if Regexp.upper c then "" else String c (beforeUpper s')
  end.

Fixpoint noUpper (s : string) : bool :=
  match s with
  | EmptyString => true
  | String c s' => negb (Regexp.upper c) && noUpper s'
  end.

(** A word of a key: an upper-case letter and the bytes up to the next one. *)
Definition isWord (w : string) : bool :=
  match w with
  | EmptyString => false
  | String c s' => Regexp.upper c && noUpper s'
  end.

Fixpoint noSeparator (s : string) : bool :=
  match s with
  | EmptyString => true
  | String c s' =>
      (if ascii_dec c Filepath.Separator then false else true) && noSeparator s'
  end.

(** A file or directory name: an element of a path other than [.] and
    [..]. *)
Definition isName (e : string) : bool :=
  Filepath.kept e && negb (String.eqb e "..") && noSeparator e.

(** The value of a string field as the specification words it: the explicit
    argument if it is not empty, otherwise the environment variable if it is
    not empty, otherwise the value of the baseline; and the registered
    default, if there is one, when that value is the empty string. *)
Definition resolved (commandArgs environ : gmap string string)
    (fieldName baseline : string) : string :=
  let merged :=
    if decide (index commandArgs fieldName ≠ "") then
      index commandArgs fieldName
    else if decide (Os.Getenv environ (fieldNameToEnvName fieldName) ≠ "") then
      Os.Getenv environ (fieldNameToEnvName fieldName)
    else baseline in
  if decide (merged = "") then
    match defaultConfigValues !! fieldName with
    | Some value => value
    | None => merged
    end
  else merged.

(** The fields that are not strings: the two configuration bags and the
    port-mapping list. *)
Definition complex (config : LocalClusterConfig) :=
  (ProviderConfiguration config, CNIConfiguration config, PortsToForward config).

(** ** Sample inputs *)
Module Sample.

Definition tanzu : User.User := {| User.HomeDir := "/home/tanzu" |}.

(** A process with nothing around it: no variable, no file, no user. *)
Definition bare : Process :=
  {| environ := ∅; files := ∅; current := None |}.

Definition devFile : string :=
  "ClusterName: dev" +:+ Flat.newline +:+
  "KubeconfigPath: ~/clusters//dev.yaml" +:+ Flat.newline +:+
  "Cni: flannel" +:+ Flat.newline +:+
  "PodCidr: 10.0.0.0/8" +:+ Flat.newline +:+
  "ServiceCidr: 10.1.0.0/16" +:+ Flat.newline.

(** What [devFile] decodes to. *)
Definition devBaseline : LocalClusterConfig :=
  {| ClusterName := "dev"; KubeconfigPath := "~/clusters//dev.yaml";
     NodeImage := ""; Provider := ""; ProviderConfiguration := ∅;
     Cni := "flannel"; CNIConfiguration := ∅;
     PodCidr := "10.0.0.0/8"; ServiceCidr := "10.1.0.0/16";
     TkrLocation := ""; PortsToForward := []; Tty := "" |}.

Definition dev : Process :=
  {| environ := {[ "TANZU_CNI" := "calico";
                   "TANZU_POD_CIDR" := "172.16.0.0/12";
                   "TANZU_NODE_IMAGE" := "kindest/node:v1.21.5" ]};
     files := {[ "/etc/tanzu" := Os.Dir;
                 "/etc/tanzu/dev.yaml" := Os.File devFile ]};
     current := Some tanzu |}.

Definition devArgs : gmap string string :=
  {[ Key.ClusterConfigFile := "/etc/tanzu/dev.yaml";
     Key.PodCIDR := "192.168.0.0/16";
     Key.Cni := "" ]}.

(** What resolution makes of [devArgs] in [dev]. *)
Definition devConfig : LocalClusterConfig :=
  {| ClusterName := "dev";
     KubeconfigPath := "/home/tanzu/clusters/dev.yaml";
     NodeImage := "kindest/node:v1.21.5"; Provider := "kind";
     ProviderConfiguration := ∅;
     Cni := "calico"; CNIConfiguration := ∅;
     PodCidr := "192.168.0.0/16"; ServiceCidr := "10.1.0.0/16";
     TkrLocation := "projects.registry.vmware.com/tce/tkr:v1.21.5";
     PortsToForward := []; Tty := "true" |}.

(** A file that names no cluster. *)
Definition anonymous : Os.FS :=
  {[ "anonymous.yaml" :=
       Os.File ("KubeconfigPath: ~/kube/config" +:+ Flat.newline) ]}.

Definition anonymousConfig : LocalClusterConfig :=
  SetString FKubeconfigPath "~/kube/config" zeroConfig.

End Sample.

(** ** Notions the further properties are stated with *)

(** An element of a path as [Clean] meets it: not empty, not [.], free of
    separators; so a name or [..]. *)
Definition isElem (e : string) : bool := Filepath.kept e && noSeparator e.

Fixpoint noUnderscore (s : string) : bool :=
  match s with
  | EmptyString => true
  | String c s' => (if ascii_dec c "_" then false else true) && noUnderscore s'
  end.

(** The bytes of ASCII text: those below 128.  On such text
    [strings.ToUpper] is the upper-casing of the bytes [a..z]. *)
Fixpoint isAscii (s : string) : bool :=
  match s with
  | EmptyString => true
  | String c s' => (nat_of_ascii c <? 128)%nat && isAscii s'
  end.

(** A key of which the derivation of the variable name loses nothing: it is
    ASCII text, no byte precedes its first upper-case letter, and it has no
    underscore. *)
Definition isKey (key : string) : bool :=
  String.eqb (beforeUpper key) "" && noUnderscore key && isAscii key.

(** Lower-casing of one byte: [A..Z] to [a..z], every other byte fixed. *)
Definition lower_byte (c : ascii) : ascii :=
  let n := nat_of_ascii c in
  if (65 <=? n)%nat && (n <=? 90)%nat then ascii_of_nat (n + 32) else c.

Fixpoint ToLower (s : string) : string :=
  match s with
  | EmptyString => EmptyString
  | String c s' => String (lower_byte c) (ToLower s')
  end.

(** The word of a key that an upper-cased word stands for: its first letter
    and the rest in lower case. *)
Definition wordOf (w : string) : string :=
  match w with
  | EmptyString => EmptyString
  | String c s' => String c (ToLower s')
  end.

(** The key that the name of an environment variable stands for: the pieces
    between the underscores after the prefix, each taken back to a word. *)
Definition keyOf (name : string) : string :=
  String.concat "" (map wordOf (tail (Strings.Split "_" name))).

(** The string fields for which a default is registered. *)
Definition hasDefault (field : Field) : bool :=
  match defaultConfigValues !! yamlTag field with
  | Some _ => true
  | None => false
  end.

(** ** Further sample inputs *)
Module Scenario.

(** A process that knows the cluster name from its environment only, and
    no user. *)
Definition envOnly : Process :=
  {| environ := {[ "TANZU_CLUSTER_NAME" := "env" ]}; files := ∅;
     current := None |}.

Definition envOnlyArgs : gmap string string :=
  {[ "KubeconfigPath" := "kube/../config" ]}.

(** [Sample.dev] without a current user. *)
Definition devNoUser : Process :=
  {| environ := environ Sample.dev; files := files Sample.dev;
     current := None |}.

(** [Sample.dev] with more around it: another variable, another file. *)
Definition devCrowded : Process :=
  {| environ := <[ "TANZU_UNKNOWN" := "x" ]> (environ Sample.dev);
     files := <[ "/etc/tanzu/other.yaml" := Os.File "ClusterName: other" ]>
                (files Sample.dev);
     current := current Sample.dev |}.

(** [Sample.devArgs] with keys that name no string field, and an empty
    value where there was none. *)
Definition devArgsCrowded : gmap string string :=
  <[ "ProviderConfiguration" := "ignored" ]>
    (<[ "Verbose" := "9" ]> (<[ "NodeImage" := "" ]> Sample.devArgs)).

(** A process whose config file is missing. *)
Definition missingArgs : gmap string string :=
  {[ Key.ClusterConfigFile := "/etc/tanzu/none.yaml";
     Key.ClusterName := "dev" ]}.

(** A process that knows its home directory. *)
Definition atHome : Process :=
  {| environ := {[ "HOME" := "/home/tanzu" ]}; files := ∅; current := None |}.

(** No variable, no user, and the file that saving [Sample.devConfig] at
    [saved.yaml] leaves. *)
Definition saved : Process :=
  {| environ := ∅;
     files :=
       {[ "saved.yaml" :=
            Os.File
              ("ClusterName: dev" +:+ Flat.newline +:+
               "KubeconfigPath: /home/tanzu/clusters/dev.yaml"
                 +:+ Flat.newline +:+
               "NodeImage: kindest/node:v1.21.5" +:+ Flat.newline +:+
               "Provider: kind" +:+ Flat.newline +:+
               "Cni: calico" +:+ Flat.newline +:+
               "PodCidr: 192.168.0.0/16" +:+ Flat.newline +:+
               "ServiceCidr: 10.1.0.0/16" +:+ Flat.newline +:+
               "TkrLocation: projects.registry.vmware.com/tce/tkr:v1.21.5"
                 +:+ Flat.newline +:+
               "Tty: true" +:+ Flat.newline) ]};
     current := None |}.


End Scenario.

(** ** The structured-text documents of configurations

    Modelled from the spec: the serialization library (gopkg.in/yaml.v3),
    which is not part of the repository.  The spec describes the file as a
    structured text document in key: value / nested-mapping / list syntax
    whose top-level keys are the serialization keys of the fields, written
    with an indentation of 2 spaces; the bags are maps from keys to values
    of any type, and the forwarded ports a list of records of two integers,
    [HostPort] and [ContainerPort].  A document is text, made of lines; a
    line has an indentation and says a key or a dash and, after it, a scalar
    or nothing when a nested block follows. *)
Module Document.

Definition dquote : ascii := ascii_of_nat 34.
Definition newline : ascii := ascii_of_nat 10.

(** The body of a double-quoted scalar. *)
Fixpoint escape (s : string) : string :=
  match s with
  | EmptyString => EmptyString
  | String c s' =>
      if ascii_dec c dquote then String "\" (String dquote (escape s'))
      else if ascii_dec c "\" then String "\" (String "\" (escape s'))
      else if ascii_dec c newline then String "\" (String "n" (escape s'))
      else String c (escape s')
  end.

Definition quote (s : string) : string :=
  String dquote (escape s +:+ String dquote "").

(** After the opening quote: the scalar up to the closing quote, and the
    text that follows it. *)
Fixpoint unquote (s : string) : option (string * string) :=
  match s with
  | EmptyString => None
  | String c s' =>
      if ascii_dec c dquote then Some ("", s')
      else if ascii_dec c "\" then
        match s' with
        | String d s'' =>
            '(t, r) ← unquote s'';
            if ascii_dec d dquote then Some (String dquote t, r)
            else if ascii_dec d "\" then Some (String "\" t, r)
            else if ascii_dec d "n" then Some (String newline t, r)
            else None
        | EmptyString => None
        end
      else '(t, r) ← unquote s'; Some (String c t, r)
  end.

Definition intText (n : Z) : string := NilZero.string_of_int (Z.to_int n).

(** A scalar on its line. *)
Definition scalarText (v : Value) : string :=
  match v with
  | VNull => "null"
  | VBool true => "true"
  | VBool false => "false"
  | VInt n => intText n
  | VString s => quote s
  | VList _ => "[]"
  | VMap _ => "{}"
  end.

Definition parseScalar (t : string) : option Value :=
  match t with
  | EmptyString => Some VNull
  | String c body =>
      if ascii_dec c dquote then
        match unquote body with
        | Some (s, EmptyString) => Some (VString s)
        | _ => None
        end
      else match NilZero.int_of_string t with
           | Some d => Some (VInt (Z.of_int d))
           | None =>
               if String.eqb t "null" || String.eqb t "~" then Some VNull
               else if String.eqb t "true" then Some (VBool true)
               else if String.eqb t "false" then Some (VBool false)
               else if String.eqb t "[]" then Some (VList [])
               else if String.eqb t "{}" then Some (VMap [])
               else Some (VString t)
           end
  end.

(** What a line says: the key of an entry ([None] on an item of a list) and
    the scalar after it, empty when a nested block follows. *)
Definition token : Type := option string * string.

(** A line: its indentation and what it says. *)
Definition line : Type := nat * token.

Definition alnum (c : ascii) : bool :=
  let n := nat_of_ascii c in
  ((48 <=? n) && (n <=? 57) || (65 <=? n) && (n <=? 90)
   || (97 <=? n) && (n <=? 122))%nat.

Fixpoint allAlnum (s : string) : bool :=
  match s with
  | EmptyString => true
  | String c s' => alnum c && allAlnum s'
  end.

(** A key is written as it is when it is made of letters and digits, and
    as a double-quoted scalar otherwise. *)
Definition plainKey (k : string) : bool :=
  negb (String.eqb k "") && allAlnum k.

Definition keyText (k : string) : string :=
  if plainKey k then k else quote k.

Definition contentText (tk : token) : string :=
  match tk with
  | (None, EmptyString) => "-"
  | (None, t) => "- " +:+ t
  | (Some k, EmptyString) => keyText k +:+ ":"
  | (Some k, t) => keyText k +:+ ": " +:+ t
  end.

Fixpoint untilColon (s : string) : string * string :=
  match s with
  | EmptyString => ("", "")
  | String c s' =>
      if ascii_dec c ":" then ("", s)
      else let '(k, r) := untilColon s' in (String c k, r)
  end.

Fixpoint trimLeft (s : string) : string :=
  match s with
  | EmptyString => EmptyString
  | String c s' => if ascii_dec c " " then trimLeft s' else s
  end.

(** What follows a key or a dash: nothing, or a space and the scalar. *)
Definition afterMark (r : string) : option string :=
  match r with
  | EmptyString => Some ""
  | String c _ => if ascii_dec c " " then Some (trimLeft r) else None
  end.

Definition parseContent (s : string) : option token :=
  match s with
  | EmptyString => None
  | String c s' =>
      if ascii_dec c "-" then t ← afterMark s'; Some (None, t)
      else
        '(k, r) ← (if ascii_dec c dquote then unquote s'
                   else Some (untilColon s));
        match r with
        | String e r' =>
            if ascii_dec e ":" then t ← afterMark r'; Some (Some k, t)
            else None
        | EmptyString => None
        end
  end.

Fixpoint spaces (n : nat) : string :=
  match n with
  | O => EmptyString
  | S n' => String " " (spaces n')
  end.

Definition lineText (l : line) : string :=
  spaces l.1 +:+ contentText l.2 +:+ String newline "".

(** The text of a document. *)
Definition text (ls : list line) : string :=
  String.concat "" (map lineText ls).

Fixpoint indentOf (s : string) : nat * string :=
  match s with
  | EmptyString => (0, "")
  | String c s' =>
      if ascii_dec c " " then let '(n, r) := indentOf s' in (S n, r)
      else (0, s)
  end.

(** One line of text: a line of the document, or nothing when the line is
    blank or a comment; [None] when it cannot be read. *)
Definition parseLine (s : string) : option (option line) :=
  let '(n, content) := indentOf s in
  match content with
  | EmptyString => Some None
  | String c _ =>
      if ascii_dec c "#" then Some None
      else tk ← parseContent content; Some (Some (n, tk))
  end.

Fixpoint parseLines (pieces : list string) : option (list line) :=
  match pieces with
  | [] => Some []
  | s :: rest =>
      l ← parseLine s;
      ls ← parseLines rest;
      Some (match l with Some l => l :: ls | None => ls end)
  end.

Definition lines (data : string) : option (list line) :=
  parseLines (Strings.Split newline data).

(** A value under its key, or as an item of a list. *)
Definition node : Type := option string * Value.

(** The lines of a value at indentation [m]: one line for a scalar, and for
    a mapping or list that is not empty the line that opens it and the lines
    of what it holds, two columns further in. *)
Fixpoint emit (m : nat) (key : option string) (v : Value) : list line :=
  match v with
  | VList items =>
      match items with
      | [] => [(m, (key, scalarText v))]
      | _ :: _ => (m, (key, "")) :: flat_map (emit (m + 2) None) items
      end
  | VMap entries =>
      match entries with
      | [] => [(m, (key, scalarText v))]
      | _ :: _ =>
          (m, (key, ""))
          :: flat_map (λ kv, emit (m + 2) (Some kv.1) kv.2) entries
      end
  | _ => [(m, (key, scalarText v))]
  end.

(** The value that the nodes of a block make: a list when they are items, a
    mapping when they are entries. *)
Definition assemble (nodes : list node) : option Value :=
  match nodes with
  | [] => Some VNull
  | (None, _) :: _ =>
      VList <$> mapM (λ n : node, match n.1 with
                                  | None => Some n.2
                                  | Some _ => None
                                  end) nodes
  | (Some _, _) :: _ =>
      VMap <$> mapM (λ n : node, match n.1 with
                                 | Some k => Some (k, n.2)
                                 | None => None
                                 end) nodes
  end.

(** The nodes of the block at indentation [m] that [ls] begins with, and
    the lines after it.  A nested block is indented further than the line
    that opens it, by any width. *)
Fixpoint parseNodes (fuel m : nat) (ls : list line)
  : option (list node * list line) :=
  match fuel with
  | O => None
  | S fuel =>
      match ls with
      | (m', (key, t)) :: ls' =>
          if decide (m' = m) then
            '(v, r) ← (if decide (t = "") then
                         match ls' with
                         | (m2, _) :: _ =>
                             if decide (m < m2) then
                               '(nodes, r) ← parseNodes fuel m2 ls';
                               v ← assemble nodes; Some (v, r)
                             else Some (VNull, ls')
                         | [] => Some (VNull, ls')
                         end
                       else v ← parseScalar t; Some (v, ls'));
            '(rest, r') ← parseNodes fuel m r;
            Some ((key, v) :: rest, r')
          else Some ([], ls)
      | [] => Some ([], ls)
      end
  end.

Definition parseDocument (ls : list line) : option (list node) :=
  match ls with
  | [] => Some []
  | (m, _) :: _ =>
      match parseNodes (2 * length ls + 1) m ls with
      | Some (nodes, []) => Some nodes
      | _ => None
      end
  end.

Definition portValue (pm : PortMap) : Value :=
  VMap [("HostPort", VInt (HostPort pm));
        ("ContainerPort", VInt (ContainerPort pm))].

Definition fieldValue (field : Field) (config : LocalClusterConfig) : Value :=
  match field with
  | FProviderConfiguration =>
      VMap (map_to_list (ProviderConfiguration config))
  | FCNIConfiguration => VMap (map_to_list (CNIConfiguration config))
  | FPortsToForward => VList (map portValue (PortsToForward config))
  | _ => VString (GetString field config)
  end.

(** The document of a configuration: one entry for each field, under its
    serialization key, in the order of the struct. *)
Definition nodesOf (config : LocalClusterConfig) : list node :=
  map (λ field, (Some (yamlTag field), fieldValue field config)) structFields.

Definition documentOf (config : LocalClusterConfig) : list line :=
  flat_map (λ n : node, emit 0 n.1 n.2) (nodesOf config).

Definition intOf (v : Value) : option Z :=
  match v with
  | VInt n => Some n
  | VNull => Some 0%Z
  | _ => None
  end.

Definition lookupInt (key : string) (entries : list (string * Value))
  : option Z :=
  match list_find (λ kv : string * Value, kv.1 = key) entries with
  | Some (_, (_, v)) => intOf v
  | None => Some 0%Z
  end.

Definition portOf (v : Value) : option PortMap :=
  match v with
  | VMap entries =>
      host ← lookupInt "HostPort" entries;
      container ← lookupInt "ContainerPort" entries;
      Some {| HostPort := host; ContainerPort := container |}
  | _ => None
  end.

Definition setComplex (field : Field)
    (bag : gmap string Value) (ports : list PortMap)
    (config : LocalClusterConfig) : LocalClusterConfig :=
  let 'Build_LocalClusterConfig cn kp ni pr pc cni cc pod svc tkr pf tty :=
    config in
  match field with
  | FProviderConfiguration =>
      Build_LocalClusterConfig cn kp ni pr bag cni cc pod svc tkr pf tty
  | FCNIConfiguration =>
      Build_LocalClusterConfig cn kp ni pr pc cni bag pod svc tkr pf tty
  | FPortsToForward =>
      Build_LocalClusterConfig cn kp ni pr pc cni cc pod svc tkr ports tty
  | _ => config
  end.

(** Decoding of a value into a field: a scalar into a string field, a
    mapping into a bag, a list of port mappings into the ports; a null
    leaves the field as it is. *)
Definition setField (field : Field) (v : Value)
    (config : LocalClusterConfig) : option LocalClusterConfig :=
  match v with
  | VNull => Some config
  | _ =>
      match kind field with
      | KString =>
          match v with
          | VString s => Some (SetString field s config)
          | VBool _ | VInt _ => Some (SetString field (scalarText v) config)
          | _ => None
          end
      | KMap =>
          match v with
          | VMap entries =>
              Some (setComplex field (list_to_map entries) [] config)
          | _ => None
          end
      | KSlice =>
          match v with
          | VList items =>
              ports ← mapM portOf items;
              Some (setComplex field ∅ ports config)
          | _ => None
          end
      end
  end.

(** The field that is serialized under a key. *)
Definition fieldOf (key : string) : option Field :=
  snd <$> list_find (λ field, yamlTag field = key) structFields.

(** One entry of the document; an entry under an unknown key is ignored. *)
Definition assign (config : option LocalClusterConfig) (n : node)
  : option LocalClusterConfig :=
  config ← config;
  match n.1 with
  | None => None
  | Some key =>
      match fieldOf key with
      | Some field => setField field n.2 config
      | None => Some config
      end
  end.

Definition decode (nodes : list node) (config : LocalClusterConfig)
  : option LocalClusterConfig :=
  fold_left assign nodes (Some config).

(** Modelled from the spec: [yaml.Marshal] of gopkg.in/yaml.v3, on a
    configuration: the document of the configuration as text, nested blocks
    indented by 2 spaces.  It never fails. *)
Definition encode (config : LocalClusterConfig) : string + string :=
  inr (text (documentOf config)).

(** Modelled from the spec: [yaml.Unmarshal] of gopkg.in/yaml.v3, into a
    configuration: the entries of the document are decoded into the fields
    they name, and the fields no entry names stay as they are.  A text that
    is not a document, or an entry that does not fit its field, is an
    error. *)
Definition unmarshal (data : string) (config : LocalClusterConfig)
  : string + LocalClusterConfig :=
  match ls ← lines data; nodes ← parseDocument ls; decode nodes config with
  | Some config => inr config
  | None => inl "yaml: cannot unmarshal the document"
  end.

(** Modelled from the spec: the serialization library gopkg.in/yaml.v3 as
    the package uses it. *)
Definition yaml : Yaml := {| Encode := encode; Unmarshal := unmarshal |}.

(** *** Notions for the properties of the documents *)


Definition digit (c : ascii) : bool :=
  let n := nat_of_ascii c in ((48 <=? n) && (n <=? 57))%nat.











Section Induction.
Variable P : Value → Prop.
Hypothesis Hnull : P VNull.
Hypothesis Hbool : ∀ b, P (VBool b).
Hypothesis Hint : ∀ n, P (VInt n).
Hypothesis Hstring : ∀ s, P (VString s).
Hypothesis Hlist : ∀ items, Forall P items → P (VList items).
Hypothesis Hmap :
  ∀ entries, Forall (λ kv : string * Value, P kv.2) entries → P (VMap entries).

End Induction.

End Document.

(** ** The model of the library on known inputs *)

(** Rows of the table that the tests of [path/filepath] check [Clean]
    against. *)
Example Clean_examples :
  map Filepath.Clean
    [ "abc"; "abc/def"; "."; ".."; "../../abc"; "/abc"; "/"; "";
      "abc/"; "./"; "../../"; "/abc/"; "abc//def//ghi"; "///abc"; "//abc//";
      "abc/./def"; "/./abc/def"; "abc/."; "abc/def/ghi/../jkl";
      "abc/def/../ghi/../jkl"; "abc/def/.."; "abc/def/../.."; "/abc/def/../..";
      "abc/def/../../.."; "/abc/def/../../..";
      "abc/def/../../../ghi/jkl/../../../mno"; "/../abc";
      "abc/./../def"; "abc//./../def"; "abc/../../././../def" ]
  = [ "abc"; "abc/def"; "."; ".."; "../../abc"; "/abc"; "/"; ".";
      "abc"; "."; "../.."; "/abc"; "abc/def/ghi"; "/abc"; "/abc";
      "abc/def"; "/abc/def"; "abc"; "abc/def/jkl";
      "abc/jkl"; "abc"; "."; "/";
      ".."; "/";
      "../../mno"; "/abc";
      "def"; "def"; "../../def" ].
Proof. by vm_compute. Qed.

Example Join_examples :
  Filepath.Join [""; ""] = "" ∧ Filepath.Join ["a"; ""] = "a"
  ∧ Filepath.Join [""; "a"] = "a" ∧ Filepath.Join ["/"; "a"] = "/a"
  ∧ Filepath.Join ["a"; "b"; "c"] = "a/b/c"
  ∧ Filepath.Join [""; "/home/u"; "x//y"] = "/home/u/x/y"
  ∧ Filepath.Join ["/home/u"; "../v"] = "/home/v".
Proof. by vm_compute. Qed.

Example Split_examples :
  Strings.Split "/" "" = [""] ∧ Strings.Split "/" "/" = [""; ""]
  ∧ Strings.Split "/" "a//b/" = ["a"; ""; "b"; ""].
Proof. by vm_compute. Qed.

Example FindAllString_examples :
  Regexp.FindAllString "PodCidr" = ["Pod"; "Cidr"]
  ∧ Regexp.FindAllString "xPodCIDr" = ["Pod"; "C"; "I"; "Dr"]
  ∧ Regexp.FindAllString "Tkr_Location9" = ["Tkr_"; "Location9"]
  ∧ Regexp.FindAllString "lower" = [].
Proof. by vm_compute. Qed.

Example Flat_examples :
  let config := SetString FClusterName "dev" (SetString FCni "calico" zeroConfig) in
  Flat.encode config
    = inr ("ClusterName: dev" +:+ Flat.newline +:+ "Cni: calico" +:+ Flat.newline)
  ∧ Flat.unmarshal ("ClusterName: dev" +:+ Flat.newline +:+ "Cni: calico" +:+ Flat.newline)
      zeroConfig = inr config
  ∧ Flat.unmarshal "" zeroConfig = inr zeroConfig.
Proof. by vm_compute. Qed.

(** ** Strings *)

Lemma append_nil_l s : "" +:+ s = s.
Proof. done. Qed.

Lemma append_cons c s t : String c s +:+ t = String c (s +:+ t).
Proof. done. Qed.

Lemma append_nil_r s : s +:+ "" = s.
Proof. induction s as [|c s IH]; [done|]. by rewrite append_cons, IH. Qed.

Lemma append_assoc s t u : (s +:+ t) +:+ u = s +:+ t +:+ u.
Proof. induction s as [|c s IH]; [done|]. by rewrite !append_cons, IH. Qed.

(** ** Environment-variable names *)

Lemma scan_fst s : (Regexp.scan s).1 = beforeUpper s.
Proof.
  induction s as [|c s IH]; [done|]. simpl.
  destruct (Regexp.scan s) as [run found]. simpl in IH. subst run.
  by destruct (Regexp.upper c).
Qed.

Lemma noUpper_beforeUpper s : noUpper (beforeUpper s) = true.
Proof.
  induction s as [|c s IH]; [done|]. simpl.
  destruct (Regexp.upper c) eqn:E; simpl; [done|]. by rewrite E.
Qed.

Lemma FindAllString_cons c s :
  Regexp.FindAllString (String c s) =
    if Regexp.upper c then String c (beforeUpper s) :: Regexp.FindAllString s
    else Regexp.FindAllString s.
Proof.
  unfold Regexp.FindAllString. simpl. rewrite <- scan_fst.
  destruct (Regexp.scan s) as [run found]. by destruct (Regexp.upper c).
Qed.

Lemma FindAllString_words s :
  Forall (λ w, isWord w = true) (Regexp.FindAllString s).
Proof.
  induction s as [|c s IH]; [constructor|].
  rewrite FindAllString_cons. destruct (Regexp.upper c) eqn:E; [|done].
  constructor; [|done]. simpl. by rewrite E, noUpper_beforeUpper.
Qed.

Lemma FindAllString_concat s :
  beforeUpper s +:+ String.concat "" (Regexp.FindAllString s) = s.
Proof.
  induction s as [|c s IH]; [done|].
  rewrite FindAllString_cons. simpl. destruct (Regexp.upper c).
  - rewrite append_nil_l. simpl.
    destruct (Regexp.FindAllString s) as [|w ws] eqn:E.
    + simpl in IH. by rewrite append_nil_r in IH; rewrite IH.
    + by rewrite append_nil_l, append_cons, IH.
  - by rewrite append_cons, IH.
Qed.

Lemma fold_left_snoc {A B} (f : B → A) (l : list B) (init : list A) :
  fold_left (λ acc x, acc ++ [f x]) l init = init ++ map f l.
Proof.
  revert init. induction l as [|x l IH]; intros init; simpl.
  - by rewrite app_nil_r.
  - by rewrite IH, <- app_assoc.
Qed.

(** C6: the environment variable of a key is the prefix [TANZU] followed by
    the upper-cased words of the key, joined with underscores, where the words
    split the key at each upper-case letter: every word is one upper-case
    letter with the bytes up to the next one, and the words concatenated give
    the key back (after the bytes that precede its first upper-case letter, if
    any).  So [PodCidr] maps to [TANZU_POD_CIDR], [ClusterName] to
    [TANZU_CLUSTER_NAME], and the single word [Provider] to
    [TANZU_PROVIDER]. *)
Theorem fieldNameToEnvName_words :
  (∀ key,
     let words := Regexp.FindAllString key in
     fieldNameToEnvName key
       = Strings.Join ("TANZU" :: map Strings.ToUpper words) "_"
     ∧ Forall (λ w, isWord w = true) words
     ∧ beforeUpper key +:+ String.concat "" words = key)
  ∧ fieldNameToEnvName "PodCidr" = "TANZU_POD_CIDR"
  ∧ fieldNameToEnvName "ClusterName" = "TANZU_CLUSTER_NAME"
  ∧ fieldNameToEnvName "Provider" = "TANZU_PROVIDER".
Proof.
  split; [|by vm_compute].
  intros key words. split; [|split].
  - unfold fieldNameToEnvName. by rewrite fold_left_snoc.
  - apply FindAllString_words.
  - apply FindAllString_concat.
Qed.

Example env_names :
  map (λ f, fieldNameToEnvName (yamlTag f))
      (filter (λ f, kind f = KString) structFields)
  = [ "TANZU_CLUSTER_NAME"; "TANZU_KUBECONFIG_PATH"; "TANZU_NODE_IMAGE";
      "TANZU_PROVIDER"; "TANZU_CNI"; "TANZU_POD_CIDR"; "TANZU_SERVICE_CIDR";
      "TANZU_TKR_LOCATION"; "TANZU_TTY" ].
Proof. by vm_compute. Qed.

(** ** The loop over the fields *)

Lemma structFields_NoDup : NoDup structFields.
Proof. apply (bool_decide_unpack _). by vm_compute. Qed.

Lemma structFields_all field : field ∈ structFields.
Proof. destruct field; unfold structFields; set_solver. Qed.

Lemma yamlTag_nonempty field : yamlTag field ≠ "".
Proof. by destruct field. Qed.

Lemma GetString_SetString field value config :
  kind field = KString → GetString field (SetString field value config) = value.
Proof. by destruct config, field. Qed.

Lemma GetString_SetString_ne field other value config :
  field ≠ other →
  GetString other (SetString field value config) = GetString other config.
Proof. by destruct config, field, other. Qed.

Lemma complex_SetString field value config :
  complex (SetString field value config) = complex config.
Proof. by destruct config, field. Qed.

Lemma lookupField_complex commandArgs environ config field :
  complex (lookupField commandArgs environ config field) = complex config.
Proof.
  unfold lookupField. destruct (kind field); [|done..].
  repeat (case_match || case_decide); by rewrite ?complex_SetString.
Qed.

Lemma lookupFields_complex commandArgs environ config :
  complex (lookupFields commandArgs environ config) = complex config.
Proof.
  unfold lookupFields. generalize structFields as fields. intros fields.
  revert config. induction fields as [|f fields IH]; intros config; [done|].
  simpl. by rewrite IH, lookupField_complex.
Qed.

Lemma lookupField_other commandArgs environ config field other :
  field ≠ other →
  GetString other (lookupField commandArgs environ config field)
  = GetString other config.
Proof.
  intros Hne. unfold lookupField. destruct (kind field); [|done..].
  repeat (case_match || case_decide); by rewrite ?GetString_SetString_ne.
Qed.

Lemma default_step field config :
  kind field = KString →
  GetString field
    (if decide (GetString field config = "") then
       match defaultConfigValues !! yamlTag field with
       | Some value => SetString field value config
       | None => config
       end
     else config)
  = if decide (GetString field config = "") then
      match defaultConfigValues !! yamlTag field with
      | Some value => value
      | None => GetString field config
      end
    else GetString field config.
Proof.
  intros Hk. case_decide; [|done].
  case_match; [by apply GetString_SetString|done].
Qed.

Lemma lookupField_same commandArgs environ config field :
  kind field = KString →
  GetString field (lookupField commandArgs environ config field)
  = resolved commandArgs environ (yamlTag field) (GetString field config).
Proof.
  intros Hk. unfold lookupField, resolved, index. rewrite Hk.
  rewrite (decide_False (P := yamlTag field = "")) by apply yamlTag_nonempty.
  rewrite default_step by done.
  set (env := Os.Getenv environ (fieldNameToEnvName (yamlTag field))).
  assert (Henv : GetString field
            (if decide (env ≠ "") then SetString field env config else config)
          = if decide (env ≠ "") then env else GetString field config).
  { case_decide; [by apply GetString_SetString|done]. }
  destruct (commandArgs !! yamlTag field) as [value|]; simpl.
  - destruct (decide (value ≠ "")) as [Hv|Hv].
    + by rewrite GetString_SetString.
    + by rewrite Henv.
  - by rewrite Henv.
Qed.

Lemma fold_lookupField_other commandArgs environ fields config other :
  other ∉ fields →
  GetString other (fold_left (lookupField commandArgs environ) fields config)
  = GetString other config.
Proof.
  revert config. induction fields as [|f fields IH]; intros config Hnot; [done|].
  apply not_elem_of_cons in Hnot as [Hne Hnot]. simpl.
  rewrite IH by done. by apply lookupField_other.
Qed.

Lemma fold_lookupField_same commandArgs environ fields config field :
  NoDup fields → field ∈ fields → kind field = KString →
  GetString field (fold_left (lookupField commandArgs environ) fields config)
  = resolved commandArgs environ (yamlTag field) (GetString field config).
Proof.
  intros Hnd. revert config.
  induction Hnd as [|f fields Hnot Hnd IH]; intros config Hin Hk.
  - by apply elem_of_nil in Hin.
  - simpl. apply elem_of_cons in Hin as [->|Hin].
    + rewrite fold_lookupField_other by done. by apply lookupField_same.
    + rewrite IH by done. f_equal. apply lookupField_other.
      intros ->. done.
Qed.

Lemma lookupFields_resolved commandArgs environ config field :
  kind field = KString →
  GetString field (lookupFields commandArgs environ config)
  = resolved commandArgs environ (yamlTag field) (GetString field config).
Proof.
  intros Hk. apply fold_lookupField_same;
    [apply structFields_NoDup | apply structFields_all | done].
Qed.

Lemma KubeconfigPath_GetString config :
  KubeconfigPath config = GetString FKubeconfigPath config.
Proof. done. Qed.

Lemma ClusterName_GetString config :
  ClusterName config = GetString FClusterName config.
Proof. done. Qed.

Lemma Provider_GetString config :
  Provider config = GetString FProvider config.
Proof. done. Qed.

Lemma config_ext (a b : LocalClusterConfig) :
  (∀ field, kind field = KString → GetString field a = GetString field b) →
  complex a = complex b → a = b.
Proof.
  intros Hs Hc. destruct a, b. unfold complex in Hc. simpl in Hc.
  pose proof (Hs FClusterName eq_refl). pose proof (Hs FKubeconfigPath eq_refl).
  pose proof (Hs FNodeImage eq_refl). pose proof (Hs FProvider eq_refl).
  pose proof (Hs FCni eq_refl). pose proof (Hs FPodCidr eq_refl).
  pose proof (Hs FServiceCidr eq_refl). pose proof (Hs FTkrLocation eq_refl).
  pose proof (Hs FTty eq_refl). simpl in *. congruence.
Qed.

(** ** Resolution *)

Section Resolution.
Context `{Yaml}.

Lemma InitializeConfiguration_unfold p commandArgs baseline :
  loadBaseline p commandArgs = Ok baseline →
  InitializeConfiguration p commandArgs =
    let config := lookupFields commandArgs (environ p) baseline in
    if decide (ClusterName config = "") then
      Err (Errorf "cluster name must be provided")
    else
      path ← sanatizeKubeconfigPath (current p) (KubeconfigPath config);
      Ok (withKubeconfigPath path config).
Proof. intros Hb. unfold InitializeConfiguration. by rewrite Hb. Qed.

Lemma InitializeConfiguration_Ok p commandArgs config :
  InitializeConfiguration p commandArgs = Ok config →
  ∃ baseline path,
    let merged := lookupFields commandArgs (environ p) baseline in
    loadBaseline p commandArgs = Ok baseline
    ∧ ClusterName merged ≠ ""
    ∧ sanatizeKubeconfigPath (current p) (KubeconfigPath merged) = Ok path
    ∧ config = withKubeconfigPath path merged.
Proof.
  unfold InitializeConfiguration.
  destruct (loadBaseline p commandArgs) as [baseline| |]; simpl; [|done..].
  case_decide as Hname; [done|].
  destruct (sanatizeKubeconfigPath _ _) as [path| |] eqn:Hpath; simpl;
    [|done..].
  intros [= <-]. by exists baseline, path.
Qed.

Lemma loadBaseline_no_file p commandArgs :
  index commandArgs Key.ClusterConfigFile = "" →
  loadBaseline p commandArgs = Ok zeroConfig.
Proof. intros Hf. unfold loadBaseline. by rewrite Hf. Qed.

End Resolution.

Lemma loadBaseline_file `{Yaml} p commandArgs configData baseline :
  index commandArgs Key.ClusterConfigFile ≠ "" →
  Os.ReadFile (files p) (index commandArgs Key.ClusterConfigFile)
  = inr configData →
  Unmarshal configData zeroConfig = inr baseline →
  loadBaseline p commandArgs = Ok baseline.
Proof.
  intros Hfile Hread Hdec. unfold loadBaseline.
  rewrite decide_True by done. by rewrite Hread, Hdec.
Qed.

(** C1: [InitializeConfiguration] resolves every string field with strict
    precedence.  With the baseline that the config file named by the
    arguments decodes to (the empty configuration when none is named), the
    loop leaves in each string field the value [resolved] describes: the
    explicit argument under the field's serialization key if it is not
    empty, otherwise the environment variable derived from that key if it is
    not empty, otherwise the value of the baseline, and the registered
    default only when the value is still empty.  When the cluster name so
    resolved is not empty and the resolved kubeconfig path is sanitized, the
    function returns a configuration that holds exactly these values (the
    kubeconfig path as sanitized) with the bags and ports of the baseline;
    and it returns no other configuration. *)
Theorem InitializeConfiguration_precedence `{Yaml} p commandArgs baseline :
  let file := index commandArgs Key.ClusterConfigFile in
  let value field :=
    resolved commandArgs (environ p) (yamlTag field)
             (GetString field baseline) in
  (file = "" ∧ baseline = zeroConfig
   ∨ file ≠ ""
     ∧ ∃ configData,
         Os.ReadFile (files p) file = inr configData
         ∧ Unmarshal configData zeroConfig = inr baseline) →
  (∀ field, kind field = KString →
     GetString field (lookupFields commandArgs (environ p) baseline)
     = value field)
  ∧ (value FClusterName ≠ "" →
     ∀ sanitized,
       sanatizeKubeconfigPath (current p) (value FKubeconfigPath)
       = Ok sanitized →
       ∃ config,
         InitializeConfiguration p commandArgs = Ok config
         ∧ (∀ field, kind field = KString →
              GetString field config
              = if decide (field = FKubeconfigPath) then sanitized
                else value field)
         ∧ ProviderConfiguration config = ProviderConfiguration baseline
         ∧ CNIConfiguration config = CNIConfiguration baseline
         ∧ PortsToForward config = PortsToForward baseline)
  ∧ (∀ config,
       InitializeConfiguration p commandArgs = Ok config →
       value FClusterName ≠ ""
       ∧ ∀ field, kind field = KString →
           if decide (field = FKubeconfigPath) then
             sanatizeKubeconfigPath (current p) (value field)
             = Ok (GetString field config)
           else GetString field config = value field).
Proof.
  intros file value Hfile.
  assert (Hb : loadBaseline p commandArgs = Ok baseline).
  { destruct Hfile as [[Hnone ->]|[Hsome (configData & Hread & Hdec)]].
    - by apply loadBaseline_no_file.
    - by eapply loadBaseline_file. }
  assert (Hloop : ∀ field, kind field = KString →
     GetString field (lookupFields commandArgs (environ p) baseline)
     = value field).
  { intros field Hk. by apply lookupFields_resolved. }
  split; [done|]. split.
  - intros Hname sanitized Hs.
    exists (withKubeconfigPath sanitized
              (lookupFields commandArgs (environ p) baseline)).
    split; [|split].
    + rewrite (InitializeConfiguration_unfold _ _ _ Hb). cbv zeta.
      rewrite (ClusterName_GetString (lookupFields _ _ _)).
      rewrite (KubeconfigPath_GetString (lookupFields _ _ _)).
      rewrite !Hloop by done. rewrite decide_False by done.
      by rewrite Hs.
    + intros field Hk. unfold withKubeconfigPath. case_decide as Hf.
      * subst field. by apply GetString_SetString.
      * rewrite GetString_SetString_ne by done. by apply Hloop.
    + pose proof (complex_SetString FKubeconfigPath sanitized
                    (lookupFields commandArgs (environ p) baseline)) as Hc.
      rewrite lookupFields_complex in Hc. unfold complex in Hc.
      unfold withKubeconfigPath. by injection Hc as -> -> ->.
  - intros config Hinit.
    apply InitializeConfiguration_Ok in Hinit
      as (baseline' & path & Hb' & Hname & Hpath & ->).
    rewrite Hb in Hb'. injection Hb' as <-.
    rewrite (ClusterName_GetString (lookupFields _ _ _)) in Hname.
    rewrite (KubeconfigPath_GetString (lookupFields _ _ _)) in Hpath.
    rewrite Hloop in Hname, Hpath by done.
    split; [done|]. intros field Hk.
    unfold withKubeconfigPath. case_decide as Hf.
    + subst field. by rewrite GetString_SetString.
    + rewrite GetString_SetString_ne by done. by apply Hloop.
Qed.

Lemma cluster_name_required `{Yaml} p commandArgs baseline :
  loadBaseline p commandArgs = Ok baseline →
  resolved commandArgs (environ p) Key.ClusterName (ClusterName baseline) = "" →
  InitializeConfiguration p commandArgs
  = Err (Errorf "cluster name must be provided").
Proof.
  intros Hb Hempty. rewrite (InitializeConfiguration_unfold _ _ _ Hb).
  cbv zeta. rewrite decide_True; [done|].
  rewrite (ClusterName_GetString (lookupFields _ _ _)).
  rewrite lookupFields_resolved by done.
  exact Hempty.
Qed.

(** C4: when the cluster name is empty after the baseline, the environment,
    the explicit arguments and the defaults are merged,
    [InitializeConfiguration] returns the error "cluster name must be
    provided" and no configuration; and every configuration it returns has a
    cluster name that is not empty. *)
Theorem InitializeConfiguration_cluster_name `{Yaml} p commandArgs baseline :
  loadBaseline p commandArgs = Ok baseline →
  (resolved commandArgs (environ p) Key.ClusterName (ClusterName baseline) = "" →
   InitializeConfiguration p commandArgs
   = Err (Errorf "cluster name must be provided"))
  ∧ (∀ config,
       InitializeConfiguration p commandArgs = Ok config →
       ClusterName config ≠ "").
Proof.
  intros Hb. split.
  - by apply cluster_name_required.
  - intros config Hinit.
    apply InitializeConfiguration_Ok in Hinit
      as (baseline' & path & _ & Hname & _ & ->).
    unfold withKubeconfigPath.
    rewrite (ClusterName_GetString (lookupFields _ _ _)) in Hname.
    rewrite (ClusterName_GetString (SetString _ _ _)).
    by rewrite GetString_SetString_ne.
Qed.

(** C9: the loop over the fields leaves the provider configuration bag, the
    CNI configuration bag and the port-mapping list as it finds them, for
    every environment and every argument map; so a configuration that
    [InitializeConfiguration] returns has them as the config-file baseline
    has them, and empty when no config file is given. *)
Theorem complex_fields_from_baseline `{Yaml} p commandArgs config :
  InitializeConfiguration p commandArgs = Ok config →
  (∀ args environ baseline,
     ProviderConfiguration (lookupFields args environ baseline)
       = ProviderConfiguration baseline
     ∧ CNIConfiguration (lookupFields args environ baseline)
       = CNIConfiguration baseline
     ∧ PortsToForward (lookupFields args environ baseline)
       = PortsToForward baseline)
  ∧ (∃ baseline,
       loadBaseline p commandArgs = Ok baseline
       ∧ ProviderConfiguration config = ProviderConfiguration baseline
       ∧ CNIConfiguration config = CNIConfiguration baseline
       ∧ PortsToForward config = PortsToForward baseline)
  ∧ (index commandArgs Key.ClusterConfigFile = "" →
     ProviderConfiguration config = ∅ ∧ CNIConfiguration config = ∅
     ∧ PortsToForward config = []).
Proof.
  intros Hinit.
  assert (Hloop : ∀ args environ baseline,
    ProviderConfiguration (lookupFields args environ baseline)
      = ProviderConfiguration baseline
    ∧ CNIConfiguration (lookupFields args environ baseline)
      = CNIConfiguration baseline
    ∧ PortsToForward (lookupFields args environ baseline)
      = PortsToForward baseline).
  { intros args env baseline.
    pose proof (lookupFields_complex args env baseline) as Hc.
    unfold complex in Hc. by injection Hc as -> -> ->. }
  apply InitializeConfiguration_Ok in Hinit
    as (baseline & path & Hb & _ & _ & ->).
  assert (Hc : complex (withKubeconfigPath path
                 (lookupFields commandArgs (environ p) baseline))
               = complex baseline).
  { unfold withKubeconfigPath.
    by rewrite complex_SetString, lookupFields_complex. }
  unfold complex in Hc. injection Hc as Hp Hn Hf.
  split; [done|]. split; [by exists baseline|].
  intros Hnofile. rewrite (loadBaseline_no_file _ _ Hnofile) in Hb.
  injection Hb as <-. by rewrite Hp, Hn, Hf.
Qed.

Lemma defaultConfigValues_lookup field :
  defaultConfigValues !! yamlTag field =
    match field with
    | FProvider => Some "kind"
    | FCni => Some "antrea"
    | FPodCidr => Some "10.244.0.0/16"
    | FServiceCidr => Some "10.96.0.0/16"
    | FTkrLocation => Some "projects.registry.vmware.com/tce/tkr:v1.21.5"
    | FTty => Some "true"
    | _ => None
    end.
Proof. destruct field; by vm_compute. Qed.

(** C3: with no config file, no environment variable of a string field set
    and the cluster name as the only explicit argument,
    [InitializeConfiguration] succeeds and returns the defaults: provider
    [kind], CNI [antrea], pod CIDR [10.244.0.0/16], service CIDR
    [10.96.0.0/16], TTY ["true"], the fixed TKR location, the given cluster
    name, and everything else empty. *)
Theorem InitializeConfiguration_defaults `{Yaml} p name :
  name ≠ "" →
  (∀ field, kind field = KString →
            Os.Getenv (environ p) (fieldNameToEnvName (yamlTag field)) = "") →
  InitializeConfiguration p {[ Key.ClusterName := name ]}
  = Ok {| ClusterName := name; KubeconfigPath := ""; NodeImage := "";
          Provider := "kind"; ProviderConfiguration := ∅;
          Cni := "antrea"; CNIConfiguration := ∅;
          PodCidr := "10.244.0.0/16"; ServiceCidr := "10.96.0.0/16";
          TkrLocation := "projects.registry.vmware.com/tce/tkr:v1.21.5";
          PortsToForward := []; Tty := "true" |}.
Proof.
  intros Hname Henv.
  set (commandArgs := {[ Key.ClusterName := name ]} : gmap string string).
  set (expected := Build_LocalClusterConfig name _ _ _ _ _ _ _ _ _ _ _).
  assert (Hb : loadBaseline p commandArgs = Ok zeroConfig).
  { apply loadBaseline_no_file. unfold index, commandArgs.
    by rewrite lookup_singleton_ne. }
  assert (Hm : lookupFields commandArgs (environ p) zeroConfig = expected).
  { apply config_ext; [|by rewrite lookupFields_complex].
    intros field Hk. rewrite lookupFields_resolved by done.
    unfold resolved. rewrite Henv, defaultConfigValues_lookup by done.
    unfold index, commandArgs.
    destruct field; try discriminate Hk;
      first [ rewrite lookup_singleton_eq; simpl;
              rewrite (decide_True (P := name ≠ "")) by done;
              by destruct (decide (name = ""))
            | by rewrite lookup_singleton_ne ]. }
  rewrite (InitializeConfiguration_unfold _ _ _ Hb). cbv zeta. rewrite Hm.
  rewrite decide_False by done. done.
Qed.

(** ** Paths *)

Lemma Split_noSeparator e :
  noSeparator e = true → Strings.Split Filepath.Separator e = [e].
Proof.
  induction e as [|c e IH]; [done|]. simpl.
  destruct (ascii_dec c Filepath.Separator); [done|]. simpl.
  intros He. by rewrite IH.
Qed.

Lemma Split_append e s :
  noSeparator e = true →
  Strings.Split Filepath.Separator (e +:+ "/" +:+ s)
  = e :: Strings.Split Filepath.Separator s.
Proof.
  induction e as [|c e IH]; [done|]. intros He. simpl in He.
  rewrite append_cons. simpl.
  destruct (ascii_dec c Filepath.Separator); [done|]. by rewrite IH.
Qed.

Lemma isName_noSeparator e : isName e = true → noSeparator e = true.
Proof. unfold isName. by intros [_ ?]%andb_prop. Qed.

Lemma isName_kept e : isName e = true → Filepath.kept e = true.
Proof. unfold isName. by intros [[? _]%andb_prop _]%andb_prop. Qed.

Lemma isName_not_dotdot e : isName e = true → String.eqb e ".." = false.
Proof.
  unfold isName. intros [[_ ?]%andb_prop _]%andb_prop.
  by apply negb_true_iff.
Qed.

Lemma Split_Join names :
  names ≠ [] → Forall (λ e, isName e = true) names →
  Strings.Split Filepath.Separator (Strings.Join names "/") = names.
Proof.
  intros Hne Hall. induction Hall as [|e names He Hall IH]; [done|].
  destruct names as [|e' names].
  - simpl. by apply Split_noSeparator, isName_noSeparator.
  - change (Strings.Join (e :: e' :: names) "/")
      with (e +:+ "/" +:+ Strings.Join (e' :: names) "/").
    rewrite Split_append by by apply isName_noSeparator.
    by rewrite IH.
Qed.

Lemma filter_kept names :
  Forall (λ e, isName e = true) names →
  filter (λ e, Is_true (Filepath.kept e)) names = names.
Proof.
  induction 1 as [|e names He Hall IH]; [done|].
  rewrite filter_cons_True; [by rewrite IH|].
  apply Is_true_true. by apply isName_kept.
Qed.

Lemma walk_names rooted out names :
  Forall (λ e, isName e = true) names →
  Filepath.walk rooted out names = rev names ++ out.
Proof.
  intros Hall. revert out.
  induction Hall as [|e names He Hall IH]; intros out; [done|].
  simpl. rewrite (isName_not_dotdot _ He), IH. by rewrite <- app_assoc.
Qed.

Lemma Join_app (a b : list string) sep :
  a ≠ [] → b ≠ [] →
  Strings.Join (a ++ b) sep = Strings.Join a sep +:+ sep +:+ Strings.Join b sep.
Proof.
  intros Ha Hb. induction a as [|x a IH]; [done|].
  destruct a as [|y a].
  - simpl. by destruct b.
  - change (Strings.Join ((x :: y :: a) ++ b) sep)
      with (x +:+ sep +:+ Strings.Join ((y :: a) ++ b) sep).
    rewrite IH by done.
    change (Strings.Join (x :: y :: a) sep)
      with (x +:+ sep +:+ Strings.Join (y :: a) sep).
    by rewrite !append_assoc.
Qed.

Lemma Join_names_cons names :
  names ≠ [] → Forall (λ e, isName e = true) names →
  ∃ c s, Strings.Join names "/" = String c s ∧ c ≠ Filepath.Separator.
Proof.
  intros Hne Hall. destruct Hall as [|e names He Hall]; [done|].
  destruct e as [|c e]; [done|].
  exists c. pose proof (isName_noSeparator _ He) as Hsep. simpl in Hsep.
  destruct (ascii_dec c Filepath.Separator); [done|].
  destruct names; simpl; eauto.
Qed.

Lemma HasPrefix_not_separator c s :
  c ≠ Filepath.Separator → Strings.HasPrefix (String c s) "/" = false.
Proof.
  intros Hc. unfold Strings.HasPrefix. cbn [String.prefix].
  by destruct (ascii_dec "/" c) as [<-|].
Qed.

Lemma Clean_relative names :
  names ≠ [] → Forall (λ e, isName e = true) names →
  Filepath.Clean (Strings.Join names "/") = Strings.Join names "/".
Proof.
  intros Hne Hall. unfold Filepath.Clean. cbv zeta.
  rewrite Split_Join, filter_kept, walk_names by done.
  rewrite app_nil_r, rev_involutive.
  destruct (Join_names_cons names Hne Hall) as (c & s & -> & Hc).
  by rewrite HasPrefix_not_separator.
Qed.

Lemma Clean_rooted names :
  Forall (λ e, isName e = true) names →
  Filepath.Clean ("/" +:+ Strings.Join names "/")
  = "/" +:+ Strings.Join names "/".
Proof.
  intros Hall. unfold Filepath.Clean.
  destruct names as [|e names]; [done|].
  change (Strings.Split Filepath.Separator ("/" +:+ ?s))
    with ("" :: Strings.Split Filepath.Separator s).
  rewrite Split_Join by done.
  rewrite filter_cons_False by (by intros ?).
  rewrite filter_kept, walk_names by done.
  rewrite app_nil_r, rev_involutive.
  generalize (Strings.Join (e :: names) "/"). intros s.
  rewrite (append_cons "/" "" s), append_nil_l.
  unfold Strings.HasPrefix. cbn. by destruct s.
Qed.

Lemma Join_single path :
  Filepath.Join [""; path]
  = if decide (path = "") then "" else Filepath.Clean path.
Proof.
  cbn [Filepath.Join String.eqb Strings.Join].
  destruct (String.eqb_spec path ""); by case_decide.
Qed.

Lemma sanatizeKubeconfigPath_other usr path :
  Strings.HasPrefix path "~/" = false →
  sanatizeKubeconfigPath usr path
  = Ok (if decide (path = "") then "" else Filepath.Clean path).
Proof.
  intros Hp. unfold sanatizeKubeconfigPath. by rewrite Hp, Join_single.
Qed.

Lemma sanatizeKubeconfigPath_tilde usr rest :
  sanatizeKubeconfigPath (Some usr) ("~/" +:+ rest)
  = Ok (Filepath.Join [Filepath.Join [""; User.HomeDir usr]; rest]).
Proof.
  unfold sanatizeKubeconfigPath.
  rewrite !append_cons, append_nil_l.
  unfold Strings.HasPrefix. cbn [String.prefix Strings.drop].
  cbn. by destruct rest.
Qed.

Lemma sanatizeKubeconfigPath_home usr dirs names :
  dirs ≠ [] → names ≠ [] →
  Forall (λ e, isName e = true) dirs → Forall (λ e, isName e = true) names →
  User.HomeDir usr = "/" +:+ Strings.Join dirs "/" →
  sanatizeKubeconfigPath (Some usr) ("~/" +:+ Strings.Join names "/")
  = Ok (User.HomeDir usr +:+ "/" +:+ Strings.Join names "/").
Proof.
  intros Hd Hn Hdirs Hnames Hhome.
  rewrite sanatizeKubeconfigPath_tilde, Join_single, Hhome.
  rewrite decide_False by done.
  rewrite Clean_rooted by done.
  change ("/" +:+ Strings.Join dirs "/")
    with (String "/" (Strings.Join dirs "/")).
  cbn [Filepath.Join String.eqb Strings.Join].
  rewrite append_cons, <- Join_app by done.
  f_equal. apply (Clean_rooted (dirs ++ names)). by apply Forall_app.
Qed.

(** C7, as the code has it: a leading [~/] is replaced by the home directory
    of the current user, when there is one, and the remainder is joined to
    it; every other path is returned as [filepath.Join] cleans it, the empty
    path staying empty.  So a path made of names only, rooted or not, passes
    through unchanged, and with a home directory that is such a rooted path,
    [~/] followed by names yields the home directory, a separator and those
    names: [~/clusters/foo.yaml] yields [<home>/clusters/foo.yaml], and
    [/abs/path.yaml] yields [/abs/path.yaml]. *)
Theorem sanatizeKubeconfigPath_joins :
  (∀ usr path,
     Strings.HasPrefix path "~/" = false →
     sanatizeKubeconfigPath usr path
     = Ok (if decide (path = "") then "" else Filepath.Clean path))
  ∧ (∀ usr names,
       Forall (λ e, isName e = true) names →
       sanatizeKubeconfigPath usr ("/" +:+ Strings.Join names "/")
       = Ok ("/" +:+ Strings.Join names "/"))
  ∧ (∀ usr names,
       names ≠ [] → Forall (λ e, isName e = true) names →
       Strings.HasPrefix (Strings.Join names "/") "~/" = false →
       sanatizeKubeconfigPath usr (Strings.Join names "/")
       = Ok (Strings.Join names "/"))
  ∧ (∀ usr rest,
       sanatizeKubeconfigPath (Some usr) ("~/" +:+ rest)
       = Ok (Filepath.Join [Filepath.Join [""; User.HomeDir usr]; rest]))
  ∧ (∀ usr dirs names,
       dirs ≠ [] → names ≠ [] →
       Forall (λ e, isName e = true) dirs →
       Forall (λ e, isName e = true) names →
       User.HomeDir usr = "/" +:+ Strings.Join dirs "/" →
       sanatizeKubeconfigPath (Some usr) ("~/" +:+ Strings.Join names "/")
       = Ok (User.HomeDir usr +:+ "/" +:+ Strings.Join names "/"))
  ∧ (∀ usr dirs,
       dirs ≠ [] → Forall (λ e, isName e = true) dirs →
       User.HomeDir usr = "/" +:+ Strings.Join dirs "/" →
       sanatizeKubeconfigPath (Some usr) "~/clusters/foo.yaml"
       = Ok (User.HomeDir usr +:+ "/clusters/foo.yaml"))
  ∧ (∀ usr, sanatizeKubeconfigPath usr "/abs/path.yaml" = Ok "/abs/path.yaml").
Proof.
  split; [exact sanatizeKubeconfigPath_other|].
  split; [|split; [|split; [exact sanatizeKubeconfigPath_tilde|]]].
  - intros usr names Hall. rewrite sanatizeKubeconfigPath_other by done.
    rewrite decide_False by done. by rewrite Clean_rooted.
  - intros usr names Hne Hall Hp. rewrite sanatizeKubeconfigPath_other by done.
    rewrite Clean_relative by done.
    destruct (Join_names_cons names Hne Hall) as (c & s & -> & _).
    by rewrite decide_False.
  - split; [exact sanatizeKubeconfigPath_home|]. split; [|done].
    intros usr dirs Hne Hall Hhome.
    apply (sanatizeKubeconfigPath_home usr dirs ["clusters"; "foo.yaml"]);
      try done.
    by repeat constructor.
Qed.

(** C2, at a current user whose lookup fails: the sanitization of a path
    that begins with [~/] panics on the nil user instead of going on with an
    empty home directory, and so does [InitializeConfiguration] when the
    resolved kubeconfig path is such a path. *)
Theorem sanatizeKubeconfigPath_nil_user :
  (∀ rest, sanatizeKubeconfigPath None ("~/" +:+ rest) = Panic)
  ∧ sanatizeKubeconfigPath None "~/clusters/foo.yaml" = Panic
  ∧ (∀ (Y : Yaml) environ files,
       InitializeConfiguration
         {| environ := environ; files := files; current := None |}
         {[ "ClusterName" := "dev";
            "KubeconfigPath" := "~/clusters/foo.yaml" ]}
       = Panic).
Proof.
  split; [|split; [done|]].
  - intros rest. unfold sanatizeKubeconfigPath.
    rewrite !append_cons, append_nil_l.
    unfold Strings.HasPrefix. cbn. by destruct rest.
  - intros Y env fs.
    set (commandArgs := {[ "ClusterName" := "dev";
           "KubeconfigPath" := "~/clusters/foo.yaml" ]} : gmap string string).
    set (p := Build_Process _ _ _).
    assert (Hb : loadBaseline p commandArgs = Ok zeroConfig).
    { by apply loadBaseline_no_file. }
    rewrite (InitializeConfiguration_unfold _ _ _ Hb). cbv zeta.
    rewrite (ClusterName_GetString (lookupFields _ _ _)).
    rewrite (KubeconfigPath_GetString (lookupFields _ _ _)).
    rewrite !lookupFields_resolved by done.
    assert (Hn : resolved commandArgs (environ p) (yamlTag FClusterName)
                   (GetString FClusterName zeroConfig) = "dev").
    { unfold resolved. by replace (index commandArgs (yamlTag FClusterName))
        with "dev" by done. }
    assert (Hk : resolved commandArgs (environ p) (yamlTag FKubeconfigPath)
                   (GetString FKubeconfigPath zeroConfig)
                 = "~/clusters/foo.yaml").
    { unfold resolved. by replace (index commandArgs (yamlTag FKubeconfigPath))
        with "~/clusters/foo.yaml" by done. }
    by rewrite Hn, Hk.
Qed.

(** ** Persistence *)

(** C8: where a file or a directory already exists at the path,
    [RenderConfigToFile] returns the error of the existing path and the file
    system is as it was, the existing content included. *)
Theorem RenderConfigToFile_exists `{Yaml} fs filePath config :
  is_Some (fs !! filePath) →
  RenderConfigToFile filePath config fs = (fs, Some (CreateFailed filePath)).
Proof.
  intros [n Hn]. unfold RenderConfigToFile, Os.ReadDir. rewrite Hn.
  by destruct n.
Qed.

Lemma RenderConfigToFile_success `{Yaml} fs fs' filePath config :
  RenderConfigToFile filePath config fs = (fs', None) →
  fs !! filePath = None
  ∧ ∃ rawConfig,
      Encode config = inr rawConfig
      ∧ fs' = <[filePath := Os.File rawConfig]> fs.
Proof.
  unfold RenderConfigToFile, Os.ReadDir, Os.WriteFile.
  destruct (fs !! filePath) as [[]|] eqn:Hl; simpl; [done..|].
  destruct (Encode config) as [err|rawConfig]; [done|].
  intros Hw. split; [done|]. exists rawConfig. split; [done|].
  repeat case_match; by simplify_eq.
Qed.

Lemma ReadFile_insert (fs : Os.FS) filePath data :
  Os.ReadFile (<[filePath := Os.File data]> fs) filePath = inr data.
Proof. unfold Os.ReadFile. by rewrite lookup_insert_eq. Qed.

Lemma RenderConfigToFile_no_directory `{Yaml} fs filePath dir config :
  filePath ≠ "" → fs !! filePath = None →
  Os.parent filePath = Some dir → fs !! dir = None →
  (∃ err, RenderConfigToFile filePath config fs = (fs, Some err))
  ∧ RenderFileToConfig fs filePath = Err (ReadFailed Os.ENOENT).
Proof.
  intros Hne Hnone Hparent Hdir. split.
  - unfold RenderConfigToFile, Os.ReadDir, Os.WriteFile.
    rewrite Hnone, Hparent, Hdir. simpl.
    destruct (Encode config); [by eexists|].
    destruct (String.eqb_spec filePath ""); by eexists.
  - unfold RenderFileToConfig, Os.ReadFile. by rewrite Hnone.
Qed.

Lemma Provider_resolved `{Yaml} p commandArgs config :
  InitializeConfiguration p commandArgs = Ok config → Provider config ≠ "".
Proof.
  intros Hinit.
  apply InitializeConfiguration_Ok in Hinit
    as (baseline & path & _ & _ & _ & ->).
  unfold withKubeconfigPath.
  rewrite (Provider_GetString (SetString _ _ _)).
  rewrite GetString_SetString_ne, lookupFields_resolved by done.
  unfold resolved. rewrite (defaultConfigValues_lookup FProvider).
  by case_decide.
Qed.

(** C10: [RenderFileToConfig] returns the configuration the decoder makes of
    the contents of the file, as it is: whatever the environment and the
    user, without defaults, sanitization or a check of the cluster name.
    Resolution from the same file differs: it rejects an empty cluster name
    that no other source fills, and never returns an empty provider. *)
Theorem RenderFileToConfig_verbatim `{Yaml} fs filePath d lcc :
  Os.ReadFile fs filePath = inr d →
  Unmarshal d zeroConfig = inr lcc →
  RenderFileToConfig fs filePath = Ok lcc
  ∧ (∀ p, files p = fs → filePath ≠ "" → ClusterName lcc = "" →
          Os.Getenv (environ p) "TANZU_CLUSTER_NAME" = "" →
          InitializeConfiguration p {[ Key.ClusterConfigFile := filePath ]}
          = Err (Errorf "cluster name must be provided"))
  ∧ (∀ p commandArgs config,
       InitializeConfiguration p commandArgs = Ok config →
       Provider config ≠ "").
Proof.
  intros Hread Hdec. split; [|split].
  - unfold RenderFileToConfig. by rewrite Hread, Hdec.
  - intros p Hfs Hpath Hname Henv.
    set (commandArgs := {[ Key.ClusterConfigFile := filePath ]}
                        : gmap string string).
    assert (Hb : loadBaseline p commandArgs = Ok lcc).
    { unfold loadBaseline, index, commandArgs.
      rewrite lookup_singleton_eq. simpl.
      rewrite decide_True by done. by rewrite Hfs, Hread, Hdec. }
    apply (cluster_name_required _ _ _ Hb).
    unfold resolved, index, commandArgs.
    rewrite lookup_singleton_ne by done. simpl.
    change (fieldNameToEnvName Key.ClusterName) with "TANZU_CLUSTER_NAME".
    rewrite Henv, Hname. done.
  - intros p commandArgs config. apply Provider_resolved.
Qed.

(** ** The operations on the sample inputs *)

Example InitializeConfiguration_dev :
  @loadBaseline Flat.yaml Sample.dev Sample.devArgs = Ok Sample.devBaseline
  ∧ @InitializeConfiguration Flat.yaml Sample.dev Sample.devArgs
    = Ok Sample.devConfig.
Proof. by vm_compute. Qed.

Lemma InitializeConfiguration_precedence_witness :
  let value field :=
    resolved Sample.devArgs (environ Sample.dev) (yamlTag field)
             (GetString field Sample.devBaseline) in
  (∃ config,
     @InitializeConfiguration Flat.yaml Sample.dev Sample.devArgs = Ok config
     ∧ (∀ field, kind field = KString →
          GetString field config
          = if decide (field = FKubeconfigPath)
            then "/home/tanzu/clusters/dev.yaml"
            else value field)
     ∧ ProviderConfiguration config = ProviderConfiguration Sample.devBaseline
     ∧ CNIConfiguration config = CNIConfiguration Sample.devBaseline
     ∧ PortsToForward config = PortsToForward Sample.devBaseline)
  ∧ value FPodCidr = "192.168.0.0/16" ∧ value FCni = "calico"
  ∧ value FServiceCidr = "10.1.0.0/16" ∧ value FProvider = "kind".
Proof.
  split; [|by vm_compute].
  destruct (@InitializeConfiguration_precedence Flat.yaml Sample.dev
              Sample.devArgs Sample.devBaseline) as (_ & Hreturns & _).
  - right. split; [discriminate|].
    exists Sample.devFile. split; vm_compute; reflexivity.
  - apply Hreturns.
    + vm_compute. discriminate.
    + vm_compute. reflexivity.
Defined.

Lemma InitializeConfiguration_defaults_witness :
  @InitializeConfiguration Flat.yaml Sample.bare {[ Key.ClusterName := "dev" ]}
  = Ok {| ClusterName := "dev"; KubeconfigPath := ""; NodeImage := "";
          Provider := "kind"; ProviderConfiguration := ∅;
          Cni := "antrea"; CNIConfiguration := ∅;
          PodCidr := "10.244.0.0/16"; ServiceCidr := "10.96.0.0/16";
          TkrLocation := "projects.registry.vmware.com/tce/tkr:v1.21.5";
          PortsToForward := []; Tty := "true" |}.
Proof.
  apply (@InitializeConfiguration_defaults Flat.yaml Sample.bare "dev").
  - discriminate.
  - intros field _. reflexivity.
Defined.

Lemma InitializeConfiguration_cluster_name_witness :
  @InitializeConfiguration Flat.yaml Sample.bare ∅
  = Err (Errorf "cluster name must be provided")
  ∧ ClusterName Sample.devConfig ≠ "".
Proof.
  split.
  - apply (@InitializeConfiguration_cluster_name Flat.yaml Sample.bare ∅
             zeroConfig); reflexivity.
  - apply (@InitializeConfiguration_cluster_name Flat.yaml Sample.dev
             Sample.devArgs Sample.devBaseline); vm_compute; reflexivity.
Defined.

Lemma complex_fields_from_baseline_witness :
  (∀ args environ baseline,
     ProviderConfiguration (lookupFields args environ baseline)
       = ProviderConfiguration baseline
     ∧ CNIConfiguration (lookupFields args environ baseline)
       = CNIConfiguration baseline
     ∧ PortsToForward (lookupFields args environ baseline)
       = PortsToForward baseline)
  ∧ ProviderConfiguration Sample.devConfig = ∅.
Proof.
  destruct (@complex_fields_from_baseline Flat.yaml Sample.dev Sample.devArgs
              Sample.devConfig) as (Hloop & _ & _).
  - vm_compute. reflexivity.
  - split; [exact Hloop | reflexivity].
Defined.

Lemma sanatizeKubeconfigPath_joins_witness :
  sanatizeKubeconfigPath (Some Sample.tanzu) "~/clusters/foo.yaml"
  = Ok "/home/tanzu/clusters/foo.yaml"
  ∧ sanatizeKubeconfigPath (Some Sample.tanzu) "~/kube/config"
    = Ok "/home/tanzu/kube/config"
  ∧ sanatizeKubeconfigPath None "kube/config" = Ok "kube/config"
  ∧ sanatizeKubeconfigPath None "/abs/path.yaml" = Ok "/abs/path.yaml"
  ∧ sanatizeKubeconfigPath None "dir/../kube//config/" = Ok "kube/config".
Proof.
  destruct sanatizeKubeconfigPath_joins
    as (Hother & Hrooted & Hrelative & _ & Hhome & Hfoo & _).
  split; [|split; [|split; [|split]]].
  - apply (Hfoo Sample.tanzu ["home"; "tanzu"]);
      [discriminate | repeat constructor | reflexivity].
  - apply (Hhome Sample.tanzu ["home"; "tanzu"] ["kube"; "config"]);
      [discriminate | discriminate | repeat constructor | repeat constructor
      | reflexivity].
  - apply (Hrelative None ["kube"; "config"]);
      [discriminate | repeat constructor | reflexivity].
  - apply (Hrooted None ["abs"; "path.yaml"]). repeat constructor.
  - apply (Hother None "dir/../kube//config/"). reflexivity.
Defined.

(** A path that begins with neither [~/] nor a separator and is not in clean
    form does not pass through unchanged. *)
Lemma sanatizeKubeconfigPath_not_unchanged :
  Strings.HasPrefix "./kubeconfig.yaml" "~/" = false
  ∧ sanatizeKubeconfigPath (Some Sample.tanzu) "./kubeconfig.yaml"
    = Ok "kubeconfig.yaml"
  ∧ sanatizeKubeconfigPath (Some Sample.tanzu) "./kubeconfig.yaml"
    ≠ Ok "./kubeconfig.yaml".
Proof. split; [|split]; [by vm_compute..|]. vm_compute. discriminate. Qed.

Lemma RenderConfigToFile_exists_witness :
  @RenderConfigToFile Flat.yaml "/etc/tanzu/dev.yaml" Sample.devConfig
    (files Sample.dev)
  = (files Sample.dev, Some (CreateFailed "/etc/tanzu/dev.yaml"))
  ∧ @RenderConfigToFile Flat.yaml "/etc/tanzu" Sample.devConfig
      (files Sample.dev)
    = (files Sample.dev, Some (CreateFailed "/etc/tanzu")).
Proof.
  split.
  - apply (@RenderConfigToFile_exists Flat.yaml).
    exists (Os.File Sample.devFile). vm_compute. reflexivity.
  - apply (@RenderConfigToFile_exists Flat.yaml).
    exists Os.Dir. vm_compute. reflexivity.
Defined.

Lemma RenderFileToConfig_verbatim_witness :
  @RenderFileToConfig Flat.yaml Sample.anonymous "anonymous.yaml"
  = Ok Sample.anonymousConfig
  ∧ ClusterName Sample.anonymousConfig = ""
  ∧ Provider Sample.anonymousConfig = ""
  ∧ KubeconfigPath Sample.anonymousConfig = "~/kube/config"
  ∧ @InitializeConfiguration Flat.yaml
      {| environ := ∅; files := Sample.anonymous; current := None |}
      {[ Key.ClusterConfigFile := "anonymous.yaml" ]}
    = Err (Errorf "cluster name must be provided").
Proof.
  destruct (@RenderFileToConfig_verbatim Flat.yaml Sample.anonymous
              "anonymous.yaml"
              ("KubeconfigPath: ~/kube/config" +:+ Flat.newline)
              Sample.anonymousConfig) as (Hload & Hreject & _).
  - vm_compute. reflexivity.
  - vm_compute. reflexivity.
  - split; [exact Hload|]. do 3 (split; [reflexivity|]).
    apply Hreject; [reflexivity | discriminate | reflexivity | reflexivity].
Defined.

(** ** Clean paths *)

Lemma Split_pieces s :
  Forall (λ e, noSeparator e = true) (Strings.Split Filepath.Separator s).
Proof.
  induction s as [|c s IH]; [by repeat constructor|]. simpl.
  destruct (ascii_dec c Filepath.Separator) as [|Hc]; [by constructor|].
  destruct (Strings.Split Filepath.Separator s) as [|piece pieces].
  - repeat constructor. simpl.
    by destruct (ascii_dec c Filepath.Separator).
  - inversion IH as [|? ? Hp Hps]; subst. constructor; [|done]. simpl.
    by destruct (ascii_dec c Filepath.Separator).
Qed.

Lemma elements_isElem s :
  Forall (λ e, isElem e = true)
         (filter (λ e, Is_true (Filepath.kept e))
                 (Strings.Split Filepath.Separator s)).
Proof.
  induction (Split_pieces s) as [|e l He Hl IH]; [constructor|].
  destruct (Filepath.kept e) eqn:Hk.
  - rewrite filter_cons_True by by rewrite Hk.
    constructor; [|done]. unfold isElem. by rewrite Hk, He.
  - rewrite filter_cons_False; [done|]. intros Ht. by rewrite Hk in Ht.
Qed.

Lemma isElem_cases e : isElem e = true → e = ".." ∨ isName e = true.
Proof.
  unfold isElem, isName. intros [Hk Hs]%andb_prop. rewrite Hk, Hs.
  destruct (String.eqb_spec e ".."); [by left|by right].
Qed.

Lemma isName_isElem e : isName e = true → isElem e = true.
Proof.
  intros He. unfold isElem.
  by rewrite (isName_kept _ He), (isName_noSeparator _ He).
Qed.

Lemma dotdot_isElem : isElem ".." = true.
Proof. done. Qed.

(** The stack of [walk] holds names above the [..] elements that a path
    that is not rooted begins with. *)
Lemma walk_form rooted elems out :
  Forall (λ e, isElem e = true) elems →
  (∃ names k, out = names ++ replicate k ".."
              ∧ Forall (λ e, isName e = true) names
              ∧ (rooted = true → k = 0)) →
  ∃ names k, Filepath.walk rooted out elems = names ++ replicate k ".."
             ∧ Forall (λ e, isName e = true) names
             ∧ (rooted = true → k = 0).
Proof.
  intros Hall. revert out.
  induction Hall as [|e elems He Hall IH]; intros out Hout; [done|].
  destruct Hout as (names & k & -> & Hnames & Hk). simpl.
  destruct (isElem_cases e He) as [->|Hname].
  - simpl. destruct names as [|top below].
    + destruct k as [|k]; simpl.
      * destruct rooted.
        -- apply IH. by exists [], 0.
        -- apply IH. by exists [], 1.
      * apply IH. exists [], (S (S k)). split; [done|]. split; [done|].
        intros Hr. by specialize (Hk Hr).
    + inversion Hnames as [|? ? Htop Hbelow]; subst. simpl.
      rewrite (isName_not_dotdot _ Htop). apply IH. by exists below, k.
  - rewrite (isName_not_dotdot _ Hname). apply IH.
    exists (e :: names), k. split; [done|]. split; [by constructor|done].
Qed.

Lemma Split_Join_pieces l :
  l ≠ [] → Forall (λ e, noSeparator e = true) l →
  Strings.Split Filepath.Separator (Strings.Join l "/") = l.
Proof.
  intros Hne Hall. induction Hall as [|e l He Hall IH]; [done|].
  destruct l as [|e' l].
  - simpl. by apply Split_noSeparator.
  - change (Strings.Join (e :: e' :: l) "/")
      with (e +:+ "/" +:+ Strings.Join (e' :: l) "/").
    rewrite Split_append by done. by rewrite IH.
Qed.

Lemma filter_kept_elements l :
  Forall (λ e, isElem e = true) l →
  filter (λ e, Is_true (Filepath.kept e)) l = l.
Proof.
  induction 1 as [|e l He Hall IH]; [done|].
  rewrite filter_cons_True; [by rewrite IH|].
  apply Is_true_true. unfold isElem in He. by apply andb_prop in He as [? _].
Qed.

Lemma walk_dotdot j rest :
  Filepath.walk false (replicate j "..") (".." :: rest)
  = Filepath.walk false (replicate (S j) "..") rest.
Proof. by destruct j. Qed.

Lemma walk_dotdots j k rest :
  Filepath.walk false (replicate j "..") (replicate k ".." ++ rest)
  = Filepath.walk false (replicate (k + j) "..") rest.
Proof.
  revert j. induction k as [|k IH]; intros j; [done|].
  change (replicate (S k) ".." ++ rest)
    with (".." :: (replicate k ".." ++ rest)).
  rewrite walk_dotdot, IH. do 2 f_equal. lia.
Qed.

Lemma rev_replicate {A} n (x : A) : rev (replicate n x) = replicate n x.
Proof.
  induction n as [|n IH]; [done|]. simpl. rewrite IH.
  by rewrite <- replicate_S_end.
Qed.

Lemma Join_elements_cons l :
  l ≠ [] → Forall (λ e, isElem e = true) l →
  ∃ c s, Strings.Join l "/" = String c s ∧ c ≠ Filepath.Separator.
Proof.
  intros Hne Hall. destruct Hall as [|e l He Hall]; [done|].
  unfold isElem in He. apply andb_prop in He as [Hk Hs].
  destruct e as [|c e]; [done|].
  exists c. simpl in Hs.
  destruct (ascii_dec c Filepath.Separator); [done|].
  destruct l; simpl; eauto.
Qed.

Lemma Clean_dotdots k names :
  replicate k ".." ++ names ≠ [] →
  Forall (λ e, isName e = true) names →
  Filepath.Clean (Strings.Join (replicate k ".." ++ names) "/")
  = Strings.Join (replicate k ".." ++ names) "/".
Proof.
  intros Hne Hnames.
  assert (Hall : Forall (λ e, isElem e = true) (replicate k ".." ++ names)).
  { apply Forall_app. split; [by apply Forall_replicate|].
    eapply Forall_impl; [done|]. apply isName_isElem. }
  assert (Hp : Strings.HasPrefix
                 (Strings.Join (replicate k ".." ++ names) "/") "/" = false).
  { destruct (Join_elements_cons _ Hne Hall) as (c & s & -> & Hc).
    by apply HasPrefix_not_separator. }
  assert (Hz : String.eqb (Strings.Join (replicate k ".." ++ names) "/") ""
               = false).
  { by destruct (Join_elements_cons _ Hne Hall) as (c & s & -> & Hc). }
  unfold Filepath.Clean. cbv zeta. rewrite Hp, Hz.
  rewrite Split_Join_pieces, filter_kept_elements; [|done|done|].
  2:{ eapply Forall_impl; [done|]. intros e He. unfold isElem in He.
      by apply andb_prop in He as [_ ?]. }
  pose proof (walk_dotdots 0 k names) as Hw.
  change (replicate 0 "..") with (@nil string) in Hw.
  rewrite Hw, walk_names by done.
  rewrite rev_app_distr, rev_involutive, rev_replicate, Nat.add_0_r.
  by rewrite Hz.
Qed.

Lemma Clean_form path :
  Filepath.Clean path = "."
  ∨ (∃ names, Forall (λ e, isName e = true) names
              ∧ Filepath.Clean path = "/" +:+ Strings.Join names "/")
  ∨ (∃ k names, Forall (λ e, isName e = true) names
                ∧ replicate k ".." ++ names ≠ []
                ∧ Filepath.Clean path
                  = Strings.Join (replicate k ".." ++ names) "/").
Proof.
  unfold Filepath.Clean. cbv zeta.
  destruct (String.eqb path ""); [by left|].
  destruct (walk_form (Strings.HasPrefix path "/")
              (filter (λ e, Is_true (Filepath.kept e))
                      (Strings.Split Filepath.Separator path)) [])
    as (names & k & -> & Hnames & Hk);
    [apply elements_isElem | by exists [], 0 |].
  rewrite rev_app_distr, rev_replicate.
  assert (Hrev : Forall (λ e, isName e = true) (rev names)).
  { apply Forall_forall. intros e He. apply list_elem_of_In, in_rev in He.
    rewrite Forall_forall in Hnames. apply Hnames. by apply list_elem_of_In. }
  destruct (Strings.HasPrefix path "/").
  - rewrite (Hk eq_refl). simpl. right. left. exists (rev names).
    split; [done|]. by rewrite (append_cons "/" "" _), append_nil_l.
  - destruct (decide (replicate k ".." ++ rev names = [])) as [->|Hne];
      [by left|].
    right. right. exists k, (rev names). split; [done|]. split; [done|].
    assert (Hall : Forall (λ e, isElem e = true) (replicate k ".." ++ rev names)).
    { apply Forall_app. split; [by apply Forall_replicate|].
      eapply Forall_impl; [done|]. apply isName_isElem. }
    by destruct (Join_elements_cons _ Hne Hall) as (c & s & -> & _).
Qed.

Lemma Clean_idempotent path :
  Filepath.Clean (Filepath.Clean path) = Filepath.Clean path.
Proof.
  destruct (Clean_form path) as [->|[(names & Hn & ->)|(k & names & Hn & Hne & ->)]].
  - done.
  - by apply Clean_rooted.
  - by apply Clean_dotdots.
Qed.

Lemma Clean_nonempty path : Filepath.Clean path ≠ "".
Proof.
  destruct (Clean_form path) as [->|[(names & Hn & ->)|(k & names & Hn & Hne & ->)]];
    [done|done|].
  assert (Hall : Forall (λ e, isElem e = true) (replicate k ".." ++ names)).
  { apply Forall_app. split; [by apply Forall_replicate|].
    eapply Forall_impl; [done|]. apply isName_isElem. }
  by destruct (Join_elements_cons _ Hne Hall) as (c & s & -> & _).
Qed.

Lemma Join_clean elem :
  Filepath.Join elem = ""
  ∨ ∃ path, Filepath.Join elem = Filepath.Clean path.
Proof.
  induction elem as [|e elem IH]; [by left|]. simpl.
  destruct (String.eqb e ""); [done|]. right. by eexists.
Qed.

Lemma Clean_HasPrefix path :
  Strings.HasPrefix path "/" = true →
  Strings.HasPrefix (Filepath.Clean path) "/" = true.
Proof.
  intros Hp. unfold Filepath.Clean. cbv zeta. rewrite Hp.
  destruct path as [|c path]; [done|].
  cbn [String.eqb]. rewrite (append_cons "/" "" _), append_nil_l.
  cbn [String.eqb]. unfold Strings.HasPrefix. cbn.
  by destruct (Strings.Join _ _).
Qed.

Lemma HasPrefix_tilde_rooted path :
  Strings.HasPrefix path "/" = true → Strings.HasPrefix path "~/" = false.
Proof.
  unfold Strings.HasPrefix. destruct path as [|c path]; [done|].
  cbn [String.prefix]. destruct (ascii_dec "/" c) as [<-|]; done.
Qed.

Lemma sanitized_stable usr path sanitized :
  sanatizeKubeconfigPath usr path = Ok sanitized →
  (sanitized = "" ∨ Filepath.Clean sanitized = sanitized)
  ∧ (Strings.HasPrefix sanitized "~/" = false →
     ∀ usr', sanatizeKubeconfigPath usr' sanitized = Ok sanitized).
Proof.
  intros Hs.
  assert (Hform : sanitized = "" ∨ Filepath.Clean sanitized = sanitized).
  { unfold sanatizeKubeconfigPath in Hs. cbv zeta in Hs.
    destruct (Strings.HasPrefix path "~/").
    - destruct usr as [u|]; [|done].
      destruct (Join_clean [Filepath.Join [""; User.HomeDir u];
                            Strings.drop 2 path]) as [Hj|[q Hj]];
        rewrite Hj in Hs; injection Hs as <-;
        [by left|right; apply Clean_idempotent].
    - destruct (Join_clean [""; path]) as [Hj|[q Hj]];
        rewrite Hj in Hs; injection Hs as <-;
        [by left|right; apply Clean_idempotent]. }
  split; [done|]. intros Hp usr'.
  rewrite sanatizeKubeconfigPath_other by done.
  case_decide; [by subst|]. by destruct Hform as [Hf | ->].
Qed.

(** X2: a sanitized kubeconfig path is empty or in clean form, so that
    cleaning it again changes nothing; and a sanitized path that does not
    begin with [~/] is returned unchanged by a second sanitization, whoever
    the user is. *)
Theorem sanatizeKubeconfigPath_clean usr path sanitized :
  sanatizeKubeconfigPath usr path = Ok sanitized →
  (sanitized = "" ∨ Filepath.Clean sanitized = sanitized)
  ∧ (Strings.HasPrefix sanitized "~/" = false →
     ∀ usr', sanatizeKubeconfigPath usr' sanitized = Ok sanitized).
Proof. apply sanitized_stable. Qed.

Lemma sanatizeKubeconfigPath_clean_witness :
  (Filepath.Clean "/home/tanzu/kube" = "/home/tanzu/kube")
  ∧ sanatizeKubeconfigPath None "/home/tanzu/kube" = Ok "/home/tanzu/kube".
Proof.
  destruct (sanatizeKubeconfigPath_clean (Some Sample.tanzu)
              "~/.//kube/x/.." "/home/tanzu/kube") as [[Hempty|Hclean] Hagain].
  - vm_compute. reflexivity.
  - discriminate Hempty.
  - split; [exact Hclean|]. apply Hagain. reflexivity.
Defined.

(** X3: with a user whose home directory is an absolute path, a path that
    begins with [~/] is sanitized without fail to an absolute path, which a
    second sanitization leaves as it is. *)
Theorem sanatizeKubeconfigPath_absolute usr rest :
  Strings.HasPrefix (User.HomeDir usr) "/" = true →
  ∃ sanitized,
    sanatizeKubeconfigPath (Some usr) ("~/" +:+ rest) = Ok sanitized
    ∧ Strings.HasPrefix sanitized "/" = true
    ∧ ∀ usr', sanatizeKubeconfigPath usr' sanitized = Ok sanitized.
Proof.
  intros Hhome. eexists. split; [apply sanatizeKubeconfigPath_tilde|].
  assert (Habs : Strings.HasPrefix
            (Filepath.Join [Filepath.Join [""; User.HomeDir usr]; rest]) "/"
          = true).
  { rewrite Join_single. destruct (User.HomeDir usr) as [|c home]; [done|].
    rewrite decide_False by done.
    pose proof (Clean_HasPrefix _ Hhome) as Hc.
    destruct (Filepath.Clean (String c home)) as [|c' home'] eqn:Hh; [done|].
    cbn [Filepath.Join String.eqb Strings.Join].
    apply Clean_HasPrefix. rewrite append_cons.
    unfold Strings.HasPrefix in *. cbn [String.prefix] in *.
    destruct (ascii_dec "/" c'); [|done]. by destruct (home' +:+ _). }
  split; [done|]. intros usr'.
  eapply sanitized_stable;
    [apply sanatizeKubeconfigPath_tilde | by apply HasPrefix_tilde_rooted].
Qed.

Lemma sanatizeKubeconfigPath_absolute_witness :
  ∃ sanitized,
    sanatizeKubeconfigPath (Some Sample.tanzu) ("~/" +:+ "../other/./kube")
    = Ok sanitized
    ∧ Strings.HasPrefix sanitized "/" = true
    ∧ ∀ usr', sanatizeKubeconfigPath usr' sanitized = Ok sanitized.
Proof.
  apply (sanatizeKubeconfigPath_absolute Sample.tanzu "../other/./kube").
  reflexivity.
Defined.

(** ** Keys and the names of their variables *)

Lemma Split_noUnderscore e :
  noUnderscore e = true → Strings.Split "_" e = [e].
Proof.
  induction e as [|c e IH]; [done|]. simpl.
  destruct (ascii_dec c "_"); [done|]. simpl.
  intros He. by rewrite IH.
Qed.

Lemma Split_underscore e s :
  noUnderscore e = true →
  Strings.Split "_" (e +:+ "_" +:+ s) = e :: Strings.Split "_" s.
Proof.
  induction e as [|c e IH]; [done|]. intros He. simpl in He.
  rewrite append_cons. simpl.
  destruct (ascii_dec c "_"); [done|]. by rewrite IH.
Qed.

Lemma Split_Join_underscore l :
  l ≠ [] → Forall (λ e, noUnderscore e = true) l →
  Strings.Split "_" (Strings.Join l "_") = l.
Proof.
  intros Hne Hall. induction Hall as [|e l He Hall IH]; [done|].
  destruct l as [|e' l].
  - simpl. by apply Split_noUnderscore.
  - change (Strings.Join (e :: e' :: l) "_")
      with (e +:+ "_" +:+ Strings.Join (e' :: l) "_").
    rewrite Split_underscore by done. by rewrite IH.
Qed.

Lemma upper_byte_underscore c :
  Strings.upper_byte c = "_"%char → c = "_"%char.
Proof. destruct c as [[] [] [] [] [] [] [] []]; by vm_compute. Qed.

Lemma lower_upper_byte c :
  Regexp.upper c = false → lower_byte (Strings.upper_byte c) = c.
Proof. destruct c as [[] [] [] [] [] [] [] []]; by vm_compute. Qed.

Lemma upper_byte_upper c :
  Regexp.upper c = true → Strings.upper_byte c = c.
Proof. destruct c as [[] [] [] [] [] [] [] []]; by vm_compute. Qed.

Lemma noUnderscore_ToUpper s :
  noUnderscore s = true → noUnderscore (Strings.ToUpper s) = true.
Proof.
  induction s as [|c s IH]; [done|]. simpl.
  destruct (ascii_dec c "_"); [done|]. simpl. intros Hs.
  destruct (ascii_dec (Strings.upper_byte c) "_") as [Hu|]; [|by apply IH].
  by apply upper_byte_underscore in Hu.
Qed.

Lemma noUnderscore_beforeUpper s :
  noUnderscore s = true → noUnderscore (beforeUpper s) = true.
Proof.
  induction s as [|c s IH]; [done|]. simpl.
  destruct (ascii_dec c "_") as [|Hc]; [done|]. simpl. intros Hs.
  destruct (Regexp.upper c); [done|]. simpl.
  destruct (ascii_dec c "_"); [done|]. by apply IH.
Qed.

Lemma noUnderscore_words s :
  noUnderscore s = true →
  Forall (λ w, noUnderscore w = true) (Regexp.FindAllString s).
Proof.
  induction s as [|c s IH]; [constructor|]. simpl.
  destruct (ascii_dec c "_") as [|Hc] eqn:Hd; [done|]. simpl. intros Hs.
  rewrite FindAllString_cons. destruct (Regexp.upper c); [|by apply IH].
  constructor; [|by apply IH]. simpl. rewrite Hd. simpl.
  by apply noUnderscore_beforeUpper.
Qed.

Lemma ToLower_ToUpper s :
  noUpper s = true → ToLower (Strings.ToUpper s) = s.
Proof.
  induction s as [|c s IH]; [done|]. simpl.
  intros [Hc Hs]%andb_prop. apply negb_true_iff in Hc.
  by rewrite lower_upper_byte, IH.
Qed.

Lemma wordOf_ToUpper w : isWord w = true → wordOf (Strings.ToUpper w) = w.
Proof.
  destruct w as [|c w]; [done|]. simpl. intros [Hc Hw]%andb_prop.
  by rewrite upper_byte_upper, ToLower_ToUpper.
Qed.

Lemma keyOf_fieldNameToEnvName key :
  isKey key = true → keyOf (fieldNameToEnvName key) = key.
Proof.
  unfold isKey. intros [[Hb Hu]%andb_prop _]%andb_prop.
  apply String.eqb_eq in Hb.
  unfold keyOf, fieldNameToEnvName. rewrite fold_left_snoc.
  change (["TANZU"] ++ ?l) with ("TANZU" :: l).
  rewrite Split_Join_underscore; [|done|].
  2:{ constructor; [done|]. apply Forall_map.
      eapply Forall_impl; [by apply noUnderscore_words|].
      intros w. apply noUnderscore_ToUpper. }
  simpl. rewrite <- (FindAllString_concat key) at 2. rewrite Hb, append_nil_l.
  f_equal. induction (FindAllString_words key) as [|w ws Hw Hws IH]; [done|].
  simpl. by rewrite wordOf_ToUpper, IH.
Qed.

(** X1: an ASCII key without underscore that begins with an upper-case
    letter (or is empty) is recovered from the name of its environment
    variable, so two such keys with the same variable are the same key; every
    serialization key of the struct is such a key. *)
Theorem fieldNameToEnvName_injective key other :
  isKey key = true → isKey other = true →
  keyOf (fieldNameToEnvName key) = key
  ∧ (fieldNameToEnvName key = fieldNameToEnvName other → key = other)
  ∧ ∀ field, isKey (yamlTag field) = true.
Proof.
  intros Hk Ho. split; [by apply keyOf_fieldNameToEnvName|]. split.
  - intros Heq. rewrite <- (keyOf_fieldNameToEnvName key) by done.
    rewrite Heq. by apply keyOf_fieldNameToEnvName.
  - intros field. by destruct field.
Qed.

Lemma fieldNameToEnvName_injective_witness :
  keyOf "TANZU_TKR_LOCATION" = "TkrLocation"
  ∧ (fieldNameToEnvName "TkrLocation" = fieldNameToEnvName "TkrLocation" →
     "TkrLocation" = "TkrLocation").
Proof.
  destruct (fieldNameToEnvName_injective "TkrLocation" "TkrLocation")
    as (Hback & Hinj & _); [reflexivity..|].
  split; [exact Hback | exact Hinj].
Defined.

(** Without the condition on underscores two keys can share a variable. *)
Example fieldNameToEnvName_collision :
  fieldNameToEnvName "A_b" = fieldNameToEnvName "AB"
  ∧ fieldNameToEnvName "podCidr" = fieldNameToEnvName "Cidr".
Proof. by vm_compute. Qed.

(** ** Further properties of the resolution *)

Lemma fold_lookupField_complex commandArgs environ fields config :
  complex (fold_left (lookupField commandArgs environ) fields config)
  = complex config.
Proof.
  revert config. induction fields as [|f fields IH]; intros config; [done|].
  simpl. by rewrite IH, lookupField_complex.
Qed.

Lemma resolved_idempotent commandArgs environ fieldName baseline :
  resolved commandArgs environ fieldName
           (resolved commandArgs environ fieldName baseline)
  = resolved commandArgs environ fieldName baseline.
Proof.
  unfold resolved.
  destruct (decide (index commandArgs fieldName ≠ "")) as [Ha|Ha]; [done|].
  destruct (decide (Os.Getenv environ (fieldNameToEnvName fieldName) ≠ ""))
    as [He|He]; [done|].
  destruct (defaultConfigValues !! fieldName) as [value|];
    destruct (decide (baseline = "")) as [->|Hb];
    rewrite ?decide_False by done; try done.
  by destruct (decide (value = "")).
Qed.

(** X7: the loop over the fields is idempotent: run again on its own result,
    with the same arguments and environment, it changes nothing. *)
Theorem lookupFields_idempotent commandArgs environ config :
  lookupFields commandArgs environ (lookupFields commandArgs environ config)
  = lookupFields commandArgs environ config.
Proof.
  apply config_ext.
  - intros field Hk.
    rewrite (lookupFields_resolved _ _ (lookupFields _ _ _)) by done.
    rewrite lookupFields_resolved by done. apply resolved_idempotent.
  - by rewrite lookupFields_complex.
Qed.

(** X8: the result of the loop does not depend on the order in which the
    fields are visited: over any arrangement of the fields of the struct it
    is the result of the loop in the order of the struct. *)
Theorem lookupFields_any_order commandArgs environ fields config :
  fields ≡ₚ structFields →
  fold_left (lookupField commandArgs environ) fields config
  = lookupFields commandArgs environ config.
Proof.
  intros Hperm. apply config_ext.
  - intros field Hk. rewrite lookupFields_resolved by done.
    apply fold_lookupField_same; [|rewrite Hperm; apply structFields_all|done].
    rewrite Hperm. apply structFields_NoDup.
  - by rewrite fold_lookupField_complex, lookupFields_complex.
Qed.

Lemma lookupFields_any_order_witness :
  fold_left (lookupField Sample.devArgs (environ Sample.dev))
            (rev structFields) Sample.devBaseline
  = lookupFields Sample.devArgs (environ Sample.dev) Sample.devBaseline.
Proof.
  apply lookupFields_any_order.
  apply (bool_decide_unpack _). vm_compute. reflexivity.
Defined.

Lemma lookupFields_agree args args' environ environ' config :
  (∀ field, kind field = KString →
            index args (yamlTag field) = index args' (yamlTag field)) →
  (∀ field, kind field = KString →
            Os.Getenv environ (fieldNameToEnvName (yamlTag field))
            = Os.Getenv environ' (fieldNameToEnvName (yamlTag field))) →
  lookupFields args environ config = lookupFields args' environ' config.
Proof.
  intros Hargs Henv. apply config_ext.
  - intros field Hk. rewrite !lookupFields_resolved by done.
    unfold resolved. by rewrite (Hargs field Hk), (Henv field Hk).
  - by rewrite !lookupFields_complex.
Qed.

Section Further.
Context `{Yaml}.

Lemma InitializeConfiguration_fields p commandArgs config field :
  InitializeConfiguration p commandArgs = Ok config →
  kind field = KString → field ≠ FKubeconfigPath →
  ∃ baseline,
    loadBaseline p commandArgs = Ok baseline
    ∧ GetString field config
      = resolved commandArgs (environ p) (yamlTag field)
                 (GetString field baseline).
Proof.
  intros Hinit Hk Hf.
  apply InitializeConfiguration_Ok in Hinit
    as (baseline & path & Hb & _ & _ & ->).
  exists baseline. split; [done|]. unfold withKubeconfigPath.
  rewrite GetString_SetString_ne by done. by apply lookupFields_resolved.
Qed.

Lemma InitializeConfiguration_default_filled p commandArgs config field value :
  InitializeConfiguration p commandArgs = Ok config →
  kind field = KString → field ≠ FKubeconfigPath →
  defaultConfigValues !! yamlTag field = Some value → value ≠ "" →
  GetString field config ≠ "".
Proof.
  intros Hinit Hk Hf Hd Hv.
  destruct (InitializeConfiguration_fields _ _ _ _ Hinit Hk Hf)
    as (baseline & _ & ->).
  unfold resolved. rewrite Hd. by case_decide.
Qed.

Lemma InitializeConfiguration_KubeconfigPath p commandArgs config :
  InitializeConfiguration p commandArgs = Ok config →
  ∃ path, sanatizeKubeconfigPath (current p) path = Ok (KubeconfigPath config).
Proof.
  intros Hinit.
  apply InitializeConfiguration_Ok in Hinit
    as (baseline & path & _ & _ & Hpath & ->).
  eexists. rewrite Hpath. unfold withKubeconfigPath.
  rewrite (KubeconfigPath_GetString (SetString _ _ _)).
  by rewrite GetString_SetString.
Qed.

Lemma InitializeConfiguration_ClusterName p commandArgs config :
  InitializeConfiguration p commandArgs = Ok config → ClusterName config ≠ "".
Proof.
  intros Hinit.
  apply InitializeConfiguration_Ok in Hinit
    as (baseline & path & _ & Hname & _ & ->).
  unfold withKubeconfigPath.
  rewrite (ClusterName_GetString (lookupFields _ _ _)) in Hname.
  rewrite (ClusterName_GetString (SetString _ _ _)).
  by rewrite GetString_SetString_ne.
Qed.

End Further.

(** X6: a configuration that [InitializeConfiguration] returns has no empty
    field among those with a registered default: provider, CNI, pod CIDR,
    service CIDR, TKR location and TTY are all set. *)
Theorem InitializeConfiguration_defaults_filled `{Yaml} p commandArgs config :
  InitializeConfiguration p commandArgs = Ok config →
  Provider config ≠ "" ∧ Cni config ≠ "" ∧ PodCidr config ≠ ""
  ∧ ServiceCidr config ≠ "" ∧ TkrLocation config ≠ "" ∧ Tty config ≠ "".
Proof.
  intros Hinit.
  pose proof (λ field value, InitializeConfiguration_default_filled
                p commandArgs config field value Hinit) as Hfilled.
  repeat split.
  - by apply (Hfilled FProvider "kind").
  - by apply (Hfilled FCni "antrea").
  - by apply (Hfilled FPodCidr "10.244.0.0/16").
  - by apply (Hfilled FServiceCidr "10.96.0.0/16").
  - by apply (Hfilled FTkrLocation
                "projects.registry.vmware.com/tce/tkr:v1.21.5").
  - by apply (Hfilled FTty "true").
Qed.

Lemma InitializeConfiguration_defaults_filled_witness :
  Provider Sample.devConfig ≠ "" ∧ Cni Sample.devConfig ≠ ""
  ∧ PodCidr Sample.devConfig ≠ "" ∧ ServiceCidr Sample.devConfig ≠ ""
  ∧ TkrLocation Sample.devConfig ≠ "" ∧ Tty Sample.devConfig ≠ "".
Proof.
  apply (@InitializeConfiguration_defaults_filled Flat.yaml Sample.dev
           Sample.devArgs).
  vm_compute. reflexivity.
Defined.

Lemma sanatizeKubeconfigPath_Panic usr path :
  sanatizeKubeconfigPath usr path = Panic
  ↔ Strings.HasPrefix path "~/" = true ∧ usr = None.
Proof.
  unfold sanatizeKubeconfigPath.
  destruct (Strings.HasPrefix path "~/"), usr;
    (split; [done|]); by intros [? ?].
Qed.

Lemma sanatizeKubeconfigPath_not_Err usr path e :
  sanatizeKubeconfigPath usr path ≠ Err e.
Proof.
  unfold sanatizeKubeconfigPath.
  by destruct (Strings.HasPrefix path "~/"), usr.
Qed.

Lemma loadBaseline_not_Panic `{Yaml} p commandArgs :
  loadBaseline p commandArgs ≠ Panic.
Proof.
  unfold loadBaseline. case_decide; [|done].
  destruct (Os.ReadFile _ _); [done|]. by destruct (Unmarshal _ _).
Qed.

(** X4: [InitializeConfiguration] panics in one situation only: the baseline
    is loaded, the merged cluster name is not empty, the merged kubeconfig
    path begins with [~/], and the lookup of the current user fails.  With a
    current user it never panics. *)
Theorem InitializeConfiguration_Panic `{Yaml} p commandArgs :
  (InitializeConfiguration p commandArgs = Panic
   ↔ ∃ baseline,
       loadBaseline p commandArgs = Ok baseline
       ∧ resolved commandArgs (environ p) Key.ClusterName
                  (ClusterName baseline) ≠ ""
       ∧ Strings.HasPrefix
           (resolved commandArgs (environ p) "KubeconfigPath"
                     (KubeconfigPath baseline)) "~/" = true
       ∧ current p = None)
  ∧ (is_Some (current p) → InitializeConfiguration p commandArgs ≠ Panic).
Proof.
  assert (Hiff : InitializeConfiguration p commandArgs = Panic
   ↔ ∃ baseline,
       loadBaseline p commandArgs = Ok baseline
       ∧ resolved commandArgs (environ p) Key.ClusterName
                  (ClusterName baseline) ≠ ""
       ∧ Strings.HasPrefix
           (resolved commandArgs (environ p) "KubeconfigPath"
                     (KubeconfigPath baseline)) "~/" = true
       ∧ current p = None).
  { destruct (loadBaseline p commandArgs) as [baseline|e|] eqn:Hb.
    - rewrite (InitializeConfiguration_unfold _ _ _ Hb). cbv zeta.
      rewrite (ClusterName_GetString (lookupFields _ _ _)).
      rewrite (KubeconfigPath_GetString (lookupFields _ _ _)).
      rewrite !lookupFields_resolved by done.
      change (GetString FClusterName baseline) with (ClusterName baseline).
      change (GetString FKubeconfigPath baseline)
        with (KubeconfigPath baseline).
      change (yamlTag FClusterName) with Key.ClusterName.
      change (yamlTag FKubeconfigPath) with "KubeconfigPath".
      set (name := resolved _ _ Key.ClusterName _).
      set (path := resolved _ _ "KubeconfigPath" _).
      case_decide as Hname.
      + split; [done|]. intros (b & [= <-] & Hne & _). done.
      + destruct (sanatizeKubeconfigPath (current p) path) as [r|e|] eqn:Hs;
          simpl.
        * split; [done|]. intros (b & [= <-] & _ & Hp & Hu).
          assert (sanatizeKubeconfigPath (current p) path = Panic) as Hpanic
            by by apply sanatizeKubeconfigPath_Panic.
          congruence.
        * by apply sanatizeKubeconfigPath_not_Err in Hs.
        * apply sanatizeKubeconfigPath_Panic in Hs as [Hp Hu].
          split; [|done]. intros _. by exists baseline.
    - unfold InitializeConfiguration. rewrite Hb. simpl.
      split; [done|]. by intros (b & [=] & _).
    - by apply loadBaseline_not_Panic in Hb. }
  split; [done|]. intros [usr Hu] Hpanic.
  apply Hiff in Hpanic as (_ & _ & _ & _ & Hnone). congruence.
Qed.

Lemma InitializeConfiguration_Panic_witness :
  @InitializeConfiguration Flat.yaml Sample.dev Sample.devArgs ≠ Panic
  ∧ @InitializeConfiguration Flat.yaml Scenario.devNoUser Sample.devArgs
    = Panic.
Proof.
  split.
  - apply (@InitializeConfiguration_Panic Flat.yaml Sample.dev Sample.devArgs).
    exists Sample.tanzu. reflexivity.
  - apply (@InitializeConfiguration_Panic Flat.yaml Scenario.devNoUser).
    exists Sample.devBaseline. vm_compute. repeat split. discriminate.
Defined.

(** X5: when the baseline is loaded, the merged cluster name is not empty,
    and the merged kubeconfig path does not begin with [~/] or the current
    user is known, [InitializeConfiguration] succeeds: it returns the
    configuration the loop produced, with the sanitized kubeconfig path. *)
Theorem InitializeConfiguration_succeeds `{Yaml} p commandArgs baseline :
  let path := resolved commandArgs (environ p) "KubeconfigPath"
                       (KubeconfigPath baseline) in
  loadBaseline p commandArgs = Ok baseline →
  resolved commandArgs (environ p) Key.ClusterName (ClusterName baseline) ≠ "" →
  Strings.HasPrefix path "~/" = false ∨ is_Some (current p) →
  ∃ sanitized,
    sanatizeKubeconfigPath (current p) path = Ok sanitized
    ∧ InitializeConfiguration p commandArgs
      = Ok (withKubeconfigPath sanitized
              (lookupFields commandArgs (environ p) baseline)).
Proof.
  intros path Hb Hname Hpath.
  rewrite (InitializeConfiguration_unfold _ _ _ Hb). cbv zeta.
  rewrite (ClusterName_GetString (lookupFields _ _ _)).
  rewrite (KubeconfigPath_GetString (lookupFields _ _ _)).
  rewrite !lookupFields_resolved by done.
  change (GetString FClusterName baseline) with (ClusterName baseline).
  change (GetString FKubeconfigPath baseline) with (KubeconfigPath baseline).
  change (yamlTag FClusterName) with Key.ClusterName.
  change (yamlTag FKubeconfigPath) with "KubeconfigPath".
  fold path. rewrite decide_False by done.
  destruct (sanatizeKubeconfigPath (current p) path) as [r|e|] eqn:Hs.
  - by exists r.
  - by apply sanatizeKubeconfigPath_not_Err in Hs.
  - apply sanatizeKubeconfigPath_Panic in Hs as [Hp Hu].
    destruct Hpath as [Hpath|[usr Husr]]; congruence.
Qed.

Lemma InitializeConfiguration_succeeds_witness :
  ∃ sanitized,
    sanatizeKubeconfigPath (current Scenario.envOnly)
      (resolved Scenario.envOnlyArgs (environ Scenario.envOnly)
                "KubeconfigPath" (KubeconfigPath zeroConfig))
    = Ok sanitized
    ∧ @InitializeConfiguration Flat.yaml Scenario.envOnly Scenario.envOnlyArgs
      = Ok (withKubeconfigPath sanitized
              (lookupFields Scenario.envOnlyArgs (environ Scenario.envOnly)
                            zeroConfig)).
Proof.
  apply (@InitializeConfiguration_succeeds Flat.yaml Scenario.envOnly
           Scenario.envOnlyArgs zeroConfig).
  - reflexivity.
  - vm_compute. discriminate.
  - left. reflexivity.
Defined.

Example InitializeConfiguration_envOnly :
  ∃ config,
    @InitializeConfiguration Flat.yaml Scenario.envOnly Scenario.envOnlyArgs
    = Ok config
    ∧ ClusterName config = "env" ∧ KubeconfigPath config = "config".
Proof. eexists. split; [by vm_compute|done]. Qed.

(** X9: [InitializeConfiguration] reads its inputs only through the
    config-file entry of the arguments and the file it names, the entries of
    the arguments under the serialization keys of the string fields, the
    environment variables derived from those keys, and the current user;
    an absent entry counts as an empty one.  Two calls that agree on these
    have the same outcome. *)
Theorem InitializeConfiguration_reads `{Yaml} p p' commandArgs commandArgs' :
  index commandArgs Key.ClusterConfigFile
  = index commandArgs' Key.ClusterConfigFile →
  Os.ReadFile (files p) (index commandArgs Key.ClusterConfigFile)
  = Os.ReadFile (files p') (index commandArgs Key.ClusterConfigFile) →
  (∀ field, kind field = KString →
            index commandArgs (yamlTag field)
            = index commandArgs' (yamlTag field)) →
  (∀ field, kind field = KString →
            Os.Getenv (environ p) (fieldNameToEnvName (yamlTag field))
            = Os.Getenv (environ p') (fieldNameToEnvName (yamlTag field))) →
  current p = current p' →
  InitializeConfiguration p commandArgs
  = InitializeConfiguration p' commandArgs'.
Proof.
  intros Hfile Hread Hargs Henv Huser.
  assert (Hb : loadBaseline p commandArgs = loadBaseline p' commandArgs').
  { unfold loadBaseline. by rewrite <- Hfile, <- Hread. }
  unfold InitializeConfiguration. rewrite <- Hb.
  destruct (loadBaseline p commandArgs) as [baseline| |]; [|done..]. simpl.
  by rewrite <- (lookupFields_agree _ _ _ _ baseline Hargs Henv), Huser.
Qed.

Lemma InitializeConfiguration_reads_witness :
  @InitializeConfiguration Flat.yaml Sample.dev Sample.devArgs
  = @InitializeConfiguration Flat.yaml Scenario.devCrowded
      Scenario.devArgsCrowded.
Proof.
  apply (@InitializeConfiguration_reads Flat.yaml).
  - reflexivity.
  - vm_compute. reflexivity.
  - intros field Hk. destruct field; try discriminate Hk; vm_compute;
      reflexivity.
  - intros field Hk. destruct field; try discriminate Hk; vm_compute;
      reflexivity.
  - reflexivity.
Defined.

(** X10: when the arguments name a config file on which [RenderFileToConfig]
    fails, [InitializeConfiguration] fails as well, whatever the other
    arguments, the environment and the user are: with the error of package
    [os] when the file cannot be read, and with the error of the YAML
    library when its contents cannot be decoded. *)
Theorem InitializeConfiguration_file_error `{Yaml} p commandArgs err :
  index commandArgs Key.ClusterConfigFile ≠ "" →
  RenderFileToConfig (files p) (index commandArgs Key.ClusterConfigFile)
  = Err err →
  InitializeConfiguration p commandArgs
  = Err match err with
        | ReadFailed cause => OsError cause
        | Invalid _ cause => YamlError cause
        | _ => err
        end.
Proof.
  intros Hfile Hload. unfold InitializeConfiguration, loadBaseline.
  rewrite decide_True by done. unfold RenderFileToConfig in Hload.
  destruct (Os.ReadFile _ _) as [e|d]; [by injection Hload as <-|].
  destruct (Unmarshal d zeroConfig) as [msg|lcc]; [|done].
  by injection Hload as <-.
Qed.

Lemma InitializeConfiguration_file_error_witness :
  @InitializeConfiguration Flat.yaml Sample.dev Scenario.missingArgs
  = Err (OsError Os.ENOENT)
  ∧ @InitializeConfiguration Flat.yaml Sample.dev
      {[ Key.ClusterConfigFile := "/etc/tanzu" ]}
    = Err (OsError Os.EISDIR).
Proof.
  split.
  - apply (@InitializeConfiguration_file_error Flat.yaml Sample.dev
             Scenario.missingArgs (ReadFailed Os.ENOENT)).
    + vm_compute. discriminate.
    + vm_compute. reflexivity.
  - apply (@InitializeConfiguration_file_error Flat.yaml Sample.dev
             {[ Key.ClusterConfigFile := "/etc/tanzu" ]}
             (ReadFailed Os.EISDIR)).
    + vm_compute. discriminate.
    + vm_compute. reflexivity.
Defined.

(** ** Further properties of the persistence helpers *)

(** X12: [RenderConfigToFile] does not overwrite what it wrote: after a
    successful call, a second call on the same path, with any
    configuration, returns the error of the existing path and changes
    nothing. *)
Theorem RenderConfigToFile_twice `{Yaml} fs fs' filePath config config' :
  RenderConfigToFile filePath config fs = (fs', None) →
  RenderConfigToFile filePath config' fs'
  = (fs', Some (CreateFailed filePath)).
Proof.
  intros Hr. apply RenderConfigToFile_success in Hr as (_ & raw & _ & ->).
  unfold RenderConfigToFile, Os.ReadDir. by rewrite lookup_insert_eq.
Qed.

Lemma RenderConfigToFile_twice_witness :
  let fs' : Os.FS := {[ "dev.yaml" := Os.File Sample.devFile ]} in
  @RenderConfigToFile Flat.yaml "dev.yaml" Sample.devConfig fs'
  = (fs', Some (CreateFailed "dev.yaml")).
Proof.
  intros fs'.
  apply (@RenderConfigToFile_twice Flat.yaml ∅ fs' "dev.yaml"
           Sample.devBaseline).
  vm_compute. reflexivity.
Defined.

(** ** The default location of the kubeconfig *)

Lemma noSeparator_app s t :
  noSeparator (s +:+ t) = noSeparator s && noSeparator t.
Proof.
  induction s as [|c s IH]; [done|]. rewrite append_cons. simpl.
  rewrite IH. by destruct (ascii_dec c Filepath.Separator).
Qed.

Lemma isName_yaml name :
  noSeparator name = true → isName (name +:+ ".yaml") = true.
Proof.
  intros Hn. unfold isName, Filepath.kept.
  rewrite noSeparator_app, Hn.
  destruct name as [|c [|d name]]; [done| |].
  - rewrite append_cons, append_nil_l. cbn [String.eqb].
    by destruct (Ascii.eqb c ".").
  - rewrite !append_cons. cbn [String.eqb].
    destruct (Ascii.eqb c "."), (Ascii.eqb d "."); try done.
    destruct name; by rewrite ?append_cons.
Qed.

(** X13: for a cluster name without separator, the default kubeconfig is the
    file [<name>.yaml] in [.config/tanzu] under the directory that [HOME]
    names, when that is a rooted path of names; and it is the relative path
    [.config/tanzu/<name>.yaml] when [HOME] is unset or empty. *)
Theorem KubeConfigPath_location p lcc :
  noSeparator (ClusterName lcc) = true →
  (∀ dirs,
     dirs ≠ [] → Forall (λ e, isName e = true) dirs →
     Os.Getenv (environ p) "HOME" = "/" +:+ Strings.Join dirs "/" →
     KubeConfigPath p lcc
     = Os.Getenv (environ p) "HOME" +:+ "/.config/tanzu/"
       +:+ ClusterName lcc +:+ ".yaml")
  ∧ (Os.Getenv (environ p) "HOME" = "" →
     KubeConfigPath p lcc = ".config/tanzu/" +:+ ClusterName lcc +:+ ".yaml").
Proof.
  intros Hname. pose proof (isName_yaml _ Hname) as Hfile.
  set (file := ClusterName lcc +:+ ".yaml") in *.
  assert (Htail : Forall (λ e, isName e = true) [".config"; "tanzu"; file])
    by by repeat constructor.
  unfold KubeConfigPath. fold file. split.
  - intros dirs Hne Hdirs ->.
    change ("/" +:+ Strings.Join dirs "/")
      with (String "/" (Strings.Join dirs "/")).
    cbn [Filepath.Join String.eqb].
    change (Strings.Join (String "/" (Strings.Join dirs "/")
                          :: [Key.configDir; Key.tanzuConfigDir; file]) "/")
      with (String "/" (Strings.Join dirs "/") +:+ "/"
            +:+ Strings.Join [".config"; "tanzu"; file] "/").
    rewrite append_cons, <- Join_app by done.
    pose proof (Clean_rooted (dirs ++ [".config"; "tanzu"; file])) as Hc.
    change ("/" +:+ ?x) with (String "/" x) in Hc.
    rewrite Hc by by apply Forall_app.
    rewrite Join_app, append_cons by done. reflexivity.
  - intros ->. unfold Key.configDir, Key.tanzuConfigDir.
    cbn [Filepath.Join String.eqb Ascii.eqb Bool.eqb].
    rewrite Clean_relative by done. reflexivity.
Qed.

Lemma KubeConfigPath_location_witness :
  KubeConfigPath Scenario.atHome Sample.devConfig
  = Os.Getenv (environ Scenario.atHome) "HOME" +:+ "/.config/tanzu/"
    +:+ ClusterName Sample.devConfig +:+ ".yaml"
  ∧ KubeConfigPath Sample.bare Sample.devConfig
    = ".config/tanzu/" +:+ ClusterName Sample.devConfig +:+ ".yaml".
Proof.
  split.
  - destruct (KubeConfigPath_location Scenario.atHome Sample.devConfig eq_refl)
      as [Hhome _].
    apply (Hhome ["home"; "tanzu"]);
      [discriminate | repeat constructor | reflexivity].
  - destruct (KubeConfigPath_location Sample.bare Sample.devConfig eq_refl)
      as [_ Hnone].
    apply Hnone. reflexivity.
Defined.

Example KubeConfigPath_examples :
  KubeConfigPath Scenario.atHome Sample.devConfig
  = "/home/tanzu/.config/tanzu/dev.yaml"
  ∧ KubeConfigPath Sample.bare Sample.devConfig = ".config/tanzu/dev.yaml".
Proof. by vm_compute. Qed.

(** ** A resolved configuration, saved and resolved again *)

Lemma RenderConfigToFile_path `{Yaml} fs fs' filePath config :
  RenderConfigToFile filePath config fs = (fs', None) → filePath ≠ "".
Proof.
  intros Hr ->. unfold RenderConfigToFile, Os.WriteFile in Hr.
  cbn [String.eqb] in Hr. repeat case_match; congruence.
Qed.

Lemma withKubeconfigPath_same config :
  withKubeconfigPath (KubeconfigPath config) config = config.
Proof. by destruct config. Qed.

Lemma yamlTag_not_file field : yamlTag field ≠ Key.ClusterConfigFile.
Proof. by destruct field. Qed.

(** X14: a configuration that [InitializeConfiguration] returned, with a
    kubeconfig path that does not begin with [~/], is a fixed point of the
    resolution: once [RenderConfigToFile] has saved it, and provided the
    decoder inverts the encoder on it, [InitializeConfiguration] on the saved
    file alone (no other argument, no variable of a string field set, any
    user) returns the same configuration. *)
Theorem saved_configuration_resolves `{Yaml}
    p commandArgs config fs fs' filePath p' :
  InitializeConfiguration p commandArgs = Ok config →
  Strings.HasPrefix (KubeconfigPath config) "~/" = false →
  RenderConfigToFile filePath config fs = (fs', None) →
  (∀ rawConfig, Encode config = inr rawConfig →
                Unmarshal rawConfig zeroConfig = inr config) →
  files p' = fs' →
  (∀ field, kind field = KString →
            Os.Getenv (environ p') (fieldNameToEnvName (yamlTag field)) = "") →
  InitializeConfiguration p' {[ Key.ClusterConfigFile := filePath ]}
  = Ok config.
Proof.
  intros Hinit Htilde Hr Hcodec Hfiles Henv.
  pose proof (RenderConfigToFile_path _ _ _ _ Hr) as Hpath.
  apply RenderConfigToFile_success in Hr as (_ & raw & Henc & ->).
  set (commandArgs' := {[ Key.ClusterConfigFile := filePath ]}
                       : gmap string string).
  assert (Hb : loadBaseline p' commandArgs' = Ok config).
  { unfold loadBaseline, index, commandArgs'. rewrite lookup_singleton_eq.
    simpl. rewrite decide_True by done.
    by rewrite Hfiles, ReadFile_insert, (Hcodec _ Henc). }
  assert (Hm : lookupFields commandArgs' (environ p') config = config).
  { apply config_ext; [|by rewrite lookupFields_complex].
    intros field Hk. rewrite lookupFields_resolved by done.
    unfold resolved, index, commandArgs'.
    rewrite lookup_singleton_ne by (symmetry; apply yamlTag_not_file).
    simpl. rewrite Henv by done.
    rewrite (decide_False (P := "" ≠ "")) by (by intros ?).
    destruct (decide (GetString field config = "")) as [Hempty|]; [|done].
    destruct (defaultConfigValues !! yamlTag field) as [value|] eqn:Hd;
      [|done].
    exfalso.
    assert (field ≠ FKubeconfigPath) as Hf.
    { intros ->. by rewrite defaultConfigValues_lookup in Hd. }
    apply (InitializeConfiguration_default_filled _ _ _ _ value Hinit Hk Hf Hd);
      [|done].
    rewrite defaultConfigValues_lookup in Hd.
    destruct field; simplify_eq; done. }
  rewrite (InitializeConfiguration_unfold _ _ _ Hb). cbv zeta. rewrite Hm.
  rewrite decide_False by by eapply InitializeConfiguration_ClusterName.
  destruct (InitializeConfiguration_KubeconfigPath _ _ _ Hinit) as [path Hs].
  destruct (sanitized_stable _ _ _ Hs) as [_ Hagain].
  rewrite (Hagain Htilde (current p')). simpl.
  by rewrite withKubeconfigPath_same.
Qed.

Lemma saved_configuration_resolves_witness :
  @InitializeConfiguration Flat.yaml Scenario.saved
    {[ Key.ClusterConfigFile := "saved.yaml" ]}
  = Ok Sample.devConfig.
Proof.
  apply (@saved_configuration_resolves Flat.yaml Sample.dev Sample.devArgs
           Sample.devConfig ∅ (files Scenario.saved) "saved.yaml"
           Scenario.saved).
  - vm_compute. reflexivity.
  - reflexivity.
  - vm_compute. reflexivity.
  - intros rawConfig Hraw. vm_compute in Hraw. injection Hraw as <-.
    vm_compute. reflexivity.
  - reflexivity.
  - intros field _. reflexivity.
Defined.

(** X15: the kubeconfig path of a configuration that
    [InitializeConfiguration] returns is empty or in clean form; it is empty
    when no source gives a kubeconfig path, and absolute when the merged path
    begins with [~/] and the home directory of the user is absolute. *)
Theorem InitializeConfiguration_KubeconfigPath_clean `{Yaml}
    p commandArgs config :
  InitializeConfiguration p commandArgs = Ok config →
  (KubeconfigPath config = ""
   ∨ Filepath.Clean (KubeconfigPath config) = KubeconfigPath config)
  ∧ ∃ baseline,
      let path := resolved commandArgs (environ p) "KubeconfigPath"
                           (KubeconfigPath baseline) in
      loadBaseline p commandArgs = Ok baseline
      ∧ (path = "" → KubeconfigPath config = "")
      ∧ (Strings.HasPrefix path "~/" = true →
         ∀ usr, current p = Some usr →
                Strings.HasPrefix (User.HomeDir usr) "/" = true →
                Strings.HasPrefix (KubeconfigPath config) "/" = true).
Proof.
  intros Hinit.
  destruct (InitializeConfiguration_KubeconfigPath _ _ _ Hinit) as [raw Hraw].
  split; [by destruct (sanitized_stable _ _ _ Hraw)|]. clear raw Hraw.
  apply InitializeConfiguration_Ok in Hinit
    as (baseline & sanitized & Hb & _ & Hs & ->).
  exists baseline. cbv zeta. split; [done|].
  rewrite (KubeconfigPath_GetString (lookupFields _ _ _)) in Hs.
  rewrite lookupFields_resolved in Hs by done.
  change (GetString FKubeconfigPath baseline) with (KubeconfigPath baseline)
    in Hs.
  change (yamlTag FKubeconfigPath) with "KubeconfigPath" in Hs.
  unfold withKubeconfigPath.
  rewrite (KubeconfigPath_GetString (SetString _ _ _)).
  rewrite GetString_SetString by done.
  set (path := resolved _ _ "KubeconfigPath" _) in *. split.
  - intros Hempty. rewrite Hempty in Hs.
    rewrite sanatizeKubeconfigPath_other in Hs by done. by injection Hs as <-.
  - intros Hp usr Hu Hhome. rewrite Hu in Hs.
    assert (∃ rest, path = "~/" +:+ rest) as [rest Hrest].
    { unfold Strings.HasPrefix in Hp. destruct path as [|a [|b rest]];
        try done; cbn [String.prefix] in Hp.
      - by destruct (ascii_dec "~" a).
      - destruct (ascii_dec "~" a) as [<-|]; [|done].
        destruct (ascii_dec "/" b) as [<-|]; [|done]. by exists rest. }
    rewrite Hrest, sanatizeKubeconfigPath_tilde in Hs.
    assert (sanitized
            = Filepath.Join [Filepath.Join [""; User.HomeDir usr]; rest])
      as -> by congruence.
    rewrite Join_single. destruct (User.HomeDir usr) as [|c home]; [done|].
    rewrite decide_False by done.
    pose proof (Clean_HasPrefix _ Hhome) as Hc.
    destruct (Filepath.Clean (String c home)) as [|c' home'] eqn:Hh; [done|].
    cbn [Filepath.Join String.eqb Strings.Join].
    apply Clean_HasPrefix. rewrite append_cons.
    unfold Strings.HasPrefix in *. cbn [String.prefix] in *.
    destruct (ascii_dec "/" c'); [|done]. by destruct (home' +:+ _).
Qed.

Lemma InitializeConfiguration_KubeconfigPath_clean_witness :
  Filepath.Clean (KubeconfigPath Sample.devConfig)
  = KubeconfigPath Sample.devConfig
  ∧ Strings.HasPrefix (KubeconfigPath Sample.devConfig) "/" = true.
Proof.
  destruct (@InitializeConfiguration_KubeconfigPath_clean Flat.yaml Sample.dev
              Sample.devArgs Sample.devConfig)
    as [[Hempty|Hclean] (baseline & Hb & _ & Habs)].
  - vm_compute. reflexivity.
  - discriminate Hempty.
  - split; [exact Hclean|].
    assert (baseline = Sample.devBaseline) as ->.
    { assert (Hb' : @loadBaseline Flat.yaml Sample.dev Sample.devArgs
                    = Ok Sample.devBaseline) by (vm_compute; reflexivity).
      rewrite Hb' in Hb. by injection Hb as <-. }
    apply (Habs eq_refl Sample.tanzu eq_refl eq_refl).
Defined.

(** ** Structured-text documents *)








Lemma digit_not_newline c :
  Document.digit c = true → c ≠ Document.newline.
Proof. by intros Hd ->. Qed.






(** Lines *)

















(** Blocks *)


















(** Documents of configurations *)







(** ** A configuration, rendered and loaded again *)

Example Document_examples :
  let config :=
    {| ClusterName := "dev"; KubeconfigPath := ""; NodeImage := "";
       Provider := ""; ProviderConfiguration := {[ "workers" := VInt 2 ]};
       Cni := ""; CNIConfiguration := ∅; PodCidr := ""; ServiceCidr := "";
       TkrLocation := "";
       PortsToForward := [ {| HostPort := 8080; ContainerPort := 80 |} ];
       Tty := "" |} in
  let empty := Document.quote "" in
  Strings.Split Document.newline
    (Document.text (Document.documentOf config))
  = [ "ClusterName: " +:+ Document.quote "dev";
      "KubeconfigPath: " +:+ empty; "NodeImage: " +:+ empty;
      "Provider: " +:+ empty;
      "ProviderConfiguration:"; "  workers: 2";
      "Cni: " +:+ empty; "CniConfiguration: {}";
      "PodCidr: " +:+ empty; "ServiceCidr: " +:+ empty;
      "TkrLocation: " +:+ empty;
      "PortsToForward:"; "  -"; "    HostPort: 8080"; "    ContainerPort: 80";
      "Tty: " +:+ empty; "" ]
  ∧ Document.unmarshal (Document.text (Document.documentOf config)) zeroConfig
    = inr config
  ∧ Document.unmarshal "ClusterName: dev" zeroConfig
    = inr (SetString FClusterName "dev" zeroConfig)
  ∧ Document.unmarshal "ClusterName" zeroConfig
    = inl "yaml: cannot unmarshal the document".
Proof. by vm_compute. Qed.



